(** * Student records (lab6a.py and lab6a_advanced.py)

    A shallow embedding of the two [Student] classes of the lab and of
    [ScholarshipStudent], with the properties the specification states
    about them.

    Conventions of the embedding.
    - A method that can raise returns a [result]; the exception is a
      constructor of [exn].
    - [self] is passed and returned explicitly; [logging] calls and the
      per-instance lock of the advanced file do not change the record and
      are left out.
    - Python numbers are [number]: [bool] and [int] carry their value, a
      finite [float] carries the rational it denotes.  Sums and quotients
      of floats are rounded to binary64 as the interpreter rounds them
      ([Float64], [Num]); a float argument that is an infinity or a NaN
      is outside the model.
    - [sum] adds from left to right, as CPython does up to version 3.11. *)

From Stdlib Require Import ZArith QArith Qabs Qround Bool List String Ascii Lia.
From Stdlib Require Import Permutation Sorted DecimalString DecimalZ DecimalPos Lqa.
Import ListNotations.

Open Scope string_scope.
Open Scope Z_scope.

(** ** Exceptions and results *)

Inductive exn : Type :=
| TypeError
| ValueError
| KeyError
| IndexError
| ZeroDivisionError
| OverflowError
| InvalidGradeError
| InvalidCourseError.

Inductive result (A : Type) : Type :=
| Ok (a : A)
| Raise (e : exn).

Arguments Ok {A} a.
Arguments Raise {A} e.

Definition bind {A B : Type} (r : result A) (k : A -> result B) : result B :=
  match r with
  | Ok a => k a
  | Raise e => Raise e
  end.

Notation "x <- r ;; k" := (bind r (fun x => k))
  (at level 61, r at next level, right associativity).

Fixpoint mapM {A B : Type} (f : A -> result B) (l : list A) : result (list B) :=
  match l with
  | [] => Ok []
  | x :: l' => y <- f x ;; ys <- mapM f l' ;; Ok (y :: ys)
  end.

(** ** Python values *)

Module Py.

(** Numbers: [bool] is a subclass of [int]; a [float] is the rational it
    denotes. *)
Inductive number : Type :=
| NBool (b : bool)
| NInt (z : Z)
| NFloat (q : Q).

(** The values the methods are called with. *)
Inductive value : Type :=
| VNone
| VNum (n : number)
| VStr (s : string).


(** The integer a [bool] or [int] stands for in arithmetic. *)
Definition int_val (n : number) : Z :=
  match n with
  | NBool true => 1
  | NBool false => 0
  | NInt z => z
  | NFloat _ => 0
  end.

(** The mathematical value of a number. *)
Definition val (n : number) : Q :=
  match n with
  | NFloat q => q
  | _ => inject_Z (int_val n)
  end.

(** [-a]. *)
Definition neg (a : number) : number :=
  match a with
  | NFloat q => NFloat (- q)
  | _ => NInt (- int_val a)
  end.

(** Comparisons are by value, also between [int] and [float]. *)
Definition lt (a b : number) : bool := negb (Qle_bool (val b) (val a)).
Definition le (a b : number) : bool := Qle_bool (val a) (val b).
Definition gt (a b : number) : bool := lt b a.

(** [isinstance(v, str)] and [isinstance(v, (int, float))]. *)
Definition isinstance_str (v : value) : bool :=
  match v with VStr _ => true | _ => false end.

Definition isinstance_int_float (v : value) : bool :=
  match v with VNum _ => true | _ => false end.

End Py.

(** ** Text: [str(int)], the format specification [.df], [split] and [float] *)

Module Text.

(** [str(z)] for an [int]. *)
Definition str_int (z : Z) : string := NilZero.string_of_int (Z.to_int z).

(** [str(z)] as the interpreter computes it: CPython 3.11 refuses, with a
    [ValueError], to write an [int] of more than 4300 digits. *)
Definition str_of_int (z : Z) : result string :=
  if (4300 <? String.length (str_int (Z.abs z)))%nat then Raise ValueError
  else Ok (str_int z).

(** [str(b)] for a [bool]. *)
Definition str_bool (b : bool) : string := if b then "True" else "False".

(** Rounding to the nearest integer, ties to the even one: the rounding
    of [format] and of the [%f] conversions. *)
Definition round_half_even (q : Q) : Z :=
  let f := Qfloor q in
  match Qcompare (q - inject_Z f) (1 # 2) with
  | Lt => f
  | Gt => f + 1
  | Eq => if Z.even f then f else f + 1
  end.

Fixpoint zeros (n : nat) : string :=
  match n with
  | O => ""
  | S n' => String "0" (zeros n')
  end.

(** [s.rjust(d, '0')]. *)
Definition pad_zeros (d : nat) (s : string) : string :=
  zeros (d - String.length s) ++ s.

(** The scaled integer [format] prints: the value times [10^d], rounded. *)
Definition scaled (d : nat) (q : Q) : Z :=
  round_half_even (Qabs q * inject_Z (10 ^ Z.of_nat d)).

(** [format(x, '.df')] for a finite float [x] of value [q]: sign, integer
    part, and [d] digits after the point. *)
Definition format_f (d : nat) (q : Q) : string :=
  let n := scaled d q in
  let p := 10 ^ Z.of_nat d in
  (if Qle_bool 0 q then "" else "-")
    ++ str_int (n / p)
    ++ match d with
       | O => ""
       | _ => "." ++ pad_zeros d (str_int (n mod p))
       end.

(** The ASCII characters that [str.split()] treats as blank. *)
Definition is_space (c : ascii) : bool :=
  let n := nat_of_ascii c in
  ((9 <=? n) && (n <=? 13) || (28 <=? n) && (n <=? 32))%nat.

(** [s.split()]: the maximal runs of non-blank characters.  [cur] is the
    run being read, reversed. *)
Fixpoint split_aux (cur : list ascii) (s : string) : list string :=
  let flush := match cur with
               | [] => []
               | _ => [string_of_list_ascii (rev cur)]
               end in
  match s with
  | EmptyString => flush
  | String c s' =>
      if is_space c then flush ++ split_aux [] s'
      else split_aux (c :: cur) s'
  end.

Definition split (s : string) : list string := split_aux [] s.

(** [l[-1]]. *)
Definition last_item {A : Type} (l : list A) : result A :=
  match rev l with
  | [] => Raise IndexError
  | x :: _ => Ok x
  end.

Definition digit_val (c : ascii) : option Z :=
  let n := nat_of_ascii c in
  if ((48 <=? n) && (n <=? 57))%nat then Some (Z.of_nat n - 48) else None.

(** Reads a run of digits: the number read so far, how many digits, and
    the rest of the text. *)
Fixpoint digits (acc : Z) (count : nat) (s : string) : Z * nat * string :=
  match s with
  | String c s' =>
      match digit_val c with
      | Some v => digits (10 * acc + v) (S count) s'
      | None => (acc, count, s)
      end
  | EmptyString => (acc, count, s)
  end.

(** [float(s)] on a decimal literal [[-+]digits[.digits]]; the exponent,
    [inf], [nan] and underscore forms do not occur in the texts the
    classes parse, and neither does surrounding blank space. *)
Definition float (s : string) : result Q :=
  let '(neg, body) :=
    match s with
    | String "-" r => (true, r)
    | String "+" r => (false, r)
    | _ => (false, s)
    end in
  let '(ip, ni, rest) := digits 0 0 body in
  let finish (m : Z) (nf : nat) (tl : string) :=
    match tl, (ni + nf)%nat with
    | EmptyString, S _ =>
        let q := (inject_Z m / inject_Z (10 ^ Z.of_nat nf))%Q in
        Ok (if neg then (- q)%Q else q)
    | _, _ => Raise ValueError
    end in
  match rest with
  | String "." r =>
      let '(m, nf, tl) := digits ip 0 r in finish m nf tl
  | _ => finish ip O rest
  end.

End Text.

(** ** Binary64 floats

    The value of a float that arithmetic on finite floats can give: a
    finite rational, the negative zero, or an infinity.  (A NaN needs
    infinities of both signs among the operands and does not arise.) *)

Module Float64.

Inductive t : Type :=
| Finite (q : Q)
| NegZero
| Infinity (negative : bool).

(** [2^e]. *)
Definition pow2 (e : Z) : Q :=
  if 0 <=? e then inject_Z (2 ^ e) else (1 # Z.to_pos (2 ^ (- e))).

(** The exponent of the leading bit of a positive rational. *)
Definition floor_log2 (a : Q) : Z :=
  let k := Z.log2 (Qnum a) - Z.log2 (Z.pos (Qden a)) in
  if Qle_bool (pow2 k) a then k else k - 1.

(** Rounding to the nearest binary64 number, ties to the even mantissa:
    53 bits of mantissa, the unit in the last place no finer than
    [2^-1074], and an infinity from [2^1024] on. *)
Definition round (q : Q) : t :=
  let r := Qred q in
  match Qnum r with
  | Z0 => Finite 0
  | _ =>
      let negative := negb (Qle_bool 0 r) in
      let a := Qabs r in
      let e := Z.max (floor_log2 a - 52) (-1074) in
      let m := Text.round_half_even (a / pow2 e) in
      if m =? 0 then (if negative then NegZero else Finite 0)
      else if Qle_bool (pow2 1024) (inject_Z m * pow2 e) then Infinity negative
      else Finite (Qred ((if negative then -1 else 1) * (inject_Z m * pow2 e)))
  end.

(** The rational is a binary64 number: rounding gives it back. *)
Definition is_exact (q : Q) : bool :=
  match round q with
  | Finite x => Qeq_bool x q
  | _ => false
  end.


End Float64.

(** ** Arithmetic on numbers: [+], [sum], [/] and the format [.df] *)

Module Num.

(** The result of an addition: an [int], or a [float] that may be an
    infinity. *)
Inductive t : Type :=
| Int (z : Z)
| Float (f : Float64.t).

(** [float(z)] for an [int]: the nearest float, [OverflowError] for an
    [int] beyond the range of the floats. *)
Definition float_of_int (z : Z) : result Q :=
  match Float64.round (inject_Z z) with
  | Float64.Finite q => Ok q
  | Float64.NegZero => Ok 0%Q
  | Float64.Infinity _ => Raise OverflowError
  end.

(** [f + y] for a float [f] and a finite float [y]. *)
Definition fadd (f : Float64.t) (y : Q) : Float64.t :=
  match f with
  | Float64.Finite x => Float64.round (x + y)
  | Float64.NegZero => Float64.round y
  | Float64.Infinity _ => f
  end.

(** [f / y] for a float [f] and a finite float [y] above 0. *)
Definition fdiv (f : Float64.t) (y : Q) : Float64.t :=
  match f with
  | Float64.Finite x => Float64.round (x / y)
  | Float64.NegZero => f
  | Float64.Infinity _ => f
  end.

(** [acc + item]: an [int] when both operands are, else the float sum of
    the operands, an [int] operand converted first. *)
Definition add (acc : t) (item : Py.number) : result t :=
  match acc, item with
  | Int a, Py.NFloat y =>
      x <- float_of_int a ;; Ok (Float (fadd (Float64.Finite x) y))
  | Int a, _ => Ok (Int (a + Py.int_val item))
  | Float f, Py.NFloat y => Ok (Float (fadd f y))
  | Float f, _ => y <- float_of_int (Py.int_val item) ;; Ok (Float (fadd f y))
  end.

(** [sum(xs)]: from the [int] 0, left to right. *)
Fixpoint sum_from (acc : t) (xs : list Py.number) : result t :=
  match xs with
  | [] => Ok acc
  | x :: xs' => acc' <- add acc x ;; sum_from acc' xs'
  end.

Definition sum (xs : list Py.number) : result t := sum_from (Int 0) xs.

(** [a / n] for a length [n]: the quotient of two [int]s is rounded once,
    and is an [OverflowError] beyond the range of the floats; a float is
    divided by the float of [n]. *)
Definition truediv (a : t) (n : nat) : result Float64.t :=
  match a with
  | Int z =>
      if (n =? 0)%nat then Raise ZeroDivisionError
      else
        match Float64.round (inject_Z z / inject_Z (Z.of_nat n)) with
        | Float64.Infinity _ => Raise OverflowError
        | f => Ok f
        end
  | Float f =>
      y <- float_of_int (Z.of_nat n) ;;
      if Qeq_bool y 0 then Raise ZeroDivisionError else Ok (fdiv f y)
  end.

(** [format(f, '.df')]. *)
Definition format_f (d : nat) (f : Float64.t) : string :=
  match f with
  | Float64.Finite q => Text.format_f d q
  | Float64.NegZero => "-" ++ Text.format_f d 0
  | Float64.Infinity false => "inf"
  | Float64.Infinity true => "-inf"
  end.

End Num.

(** ** [collections.OrderedDict] with [str] keys

    An association list in insertion order.  Assigning to a key that is
    present replaces its value where it stands; a new key goes to the
    end. *)

Module OrderedDict.

Section WithValues.
Context {V : Type}.

Definition t : Type := list (string * V).

Definition empty : t := [].

Definition keys (d : t) : list string := map fst d.
Definition values (d : t) : list V := map snd d.
Definition items (d : t) : list (string * V) := d.
Definition len (d : t) : nat := List.length d.

(** [k in d]. *)
Definition contains (k : string) (d : t) : bool :=
  existsb (fun e => String.eqb (fst e) k) d.

(** [d[k]]. *)
Fixpoint getitem (k : string) (d : t) : result V :=
  match d with
  | [] => Raise KeyError
  | (k', v) :: d' => if String.eqb k' k then Ok v else getitem k d'
  end.

(** [d[k] = v]. *)
Fixpoint setitem (k : string) (v : V) (d : t) : t :=
  match d with
  | [] => [(k, v)]
  | (k', v') :: d' =>
      if String.eqb k' k then (k', v) :: d' else (k', v') :: setitem k v d'
  end.

(** The position of a key in the enumeration. *)
Fixpoint index (k : string) (d : t) : option nat :=
  match d with
  | [] => None
  | (k', _) :: d' =>
      if String.eqb k' k then Some O else option_map S (index k d')
  end.

(** A dictionary holds each key once. *)
Definition wf (d : t) : Prop := NoDup (keys d).

(** Assignments in sequence, as a run of [addGrade] calls makes them. *)
Definition assign_all (l : list (string * V)) (d : t) : t :=
  fold_left (fun acc e => setitem (fst e) (snd e) acc) l d.

End WithValues.

Arguments t V : clear implicits.

End OrderedDict.

(** ** [sorted(l, key=f)]

    The keys are computed once, left to right; the sort is stable and
    compares keys with [<] only. *)

Module Sort.

Section Sorted.
Context {A : Type}.

Fixpoint insert (x : Py.number * A) (l : list (Py.number * A)) :
  list (Py.number * A) :=
  match l with
  | [] => [x]
  | y :: l' => if Py.lt (fst y) (fst x) then y :: insert x l' else x :: l
  end.

Definition sort (l : list (Py.number * A)) : list (Py.number * A) :=
  fold_right insert [] l.

Definition sorted (key : A -> result Py.number) (l : list A) : result (list A) :=
  ks <- mapM (fun x => k <- key x ;; Ok (k, x)) l ;;
  Ok (map snd (sort ks)).

(** The order of the keys. *)
Definition key_le (x y : Py.number * A) : Prop :=
  (Py.val (fst x) <= Py.val (fst y))%Q.

(** The elements whose key has the value [v]. *)
Definition has_key (v : Q) (x : Py.number * A) : bool :=
  Qeq_bool (Py.val (fst x)) v.

End Sorted.

End Sort.

(** ** lab6a.py *)

Module Base.

Record student : Type := {
  name : string;
  number : string;
  courses : OrderedDict.t Py.number
}.

(** [Student(name, number)]; the number is an [int] or a [str]. *)
Definition Student (name : string) (number : Z + string) : student :=
  {| name := name;
     number := match number with inl z => Text.str_int z | inr s => s end;
     courses := OrderedDict.empty |}.

Definition addGrade (self : student) (course : string) (grade : Py.number) :
  student :=
  {| name := name self;
     number := number self;
     courses := OrderedDict.setitem course grade (courses self) |}.

Definition displayGPA (self : student) : result string :=
  if (OrderedDict.len (courses self) =? 0)%nat then
    Ok ("GPA of student " ++ name self ++ " is 0.0")
  else
    total <- Num.sum (OrderedDict.values (courses self)) ;;
    gpa <- Num.truediv total (OrderedDict.len (courses self)) ;;
    Ok ("GPA of student " ++ name self ++ " is " ++ Num.format_f 1 gpa).

Definition displayCourses (self : student) : list string :=
  map fst
    (filter (fun e => Py.gt (snd e) (Py.NFloat 0))
            (OrderedDict.items (courses self))).

(** [Student.displayStudent]. *)
Definition displayStudent (self : student) : string :=
  "Student Name: " ++ name self ++ String "010" "Student Number: " ++ number self.

End Base.

(** ** [functools.lru_cache]

    The wrapper builds its key from the call's arguments and looks it up
    in a dictionary, so it first hashes the arguments; for a method the
    only argument is [self].  [hash_] is the [__hash__] of the class of
    [self], [None] when the class has none; [eq_] is its [__eq__].  The
    cache belongs to the function: all instances share it.  Entries are
    kept most recently used first, each with the hash its key had when it
    was stored. *)

Module Functools.

Section LruCache.
Context {A R : Type}.
Variable hash_ : option (A -> Z).
Variable eq_ : A -> A -> bool.
Variable maxsize : nat.
Variable f : A -> result R.

Definition cache : Type := list (Z * A * R).

Definition hit (h : Z) (x : A) (e : Z * A * R) : bool :=
  (fst (fst e) =? h) && eq_ (snd (fst e)) x.

Definition lru_cache (c : cache) (x : A) : result R * cache :=
  match hash_ with
  | None => (Raise TypeError, c)
  | Some hash =>
      let h := hash x in
      match find (hit h x) c with
      | Some e => (Ok (snd e), e :: filter (fun e' => negb (hit h x e')) c)
      | None =>
          match f x with
          | Ok r => (Ok r, firstn maxsize ((h, x, r) :: c))
          | Raise e => (Raise e, c)
          end
      end
  end.

End LruCache.

End Functools.

(** ** lab6a_advanced.py *)

Module Advanced.

Record student : Type := {
  _name : string;
  _number : string;
  _courses : OrderedDict.t Py.number
}.

(** [Student.__init__]. *)
Definition Student___init__ (name number : Py.value) : result student :=
  match name with
  | Py.VStr n =>
      match number with
      | Py.VStr s =>
          Ok {| _name := n; _number := s; _courses := OrderedDict.empty |}
      | Py.VNum (Py.NInt z) =>
          t <- Text.str_of_int z ;;
          Ok {| _name := n; _number := t; _courses := OrderedDict.empty |}
      | Py.VNum (Py.NBool b) =>
          Ok {| _name := n; _number := Text.str_bool b;
                _courses := OrderedDict.empty |}
      | _ => Raise TypeError
      end
  | _ => Raise TypeError
  end.

(** [Student.addGrade]: the outcome of the call and the record after it;
    a call that raises leaves the record as the checks found it. *)
Definition addGrade (self : student) (course grade : Py.value) :
  result unit * student :=
  match course with
  | Py.VStr c =>
      if (String.length c <? 3)%nat then (Raise InvalidCourseError, self)
      else
        match grade with
        | Py.VNum g =>
            if negb (Py.le (Py.NFloat 0) g && Py.le g (Py.NFloat 4))
            then (Raise InvalidGradeError, self)
            else (Ok tt,
                  {| _name := _name self;
                     _number := _number self;
                     _courses := OrderedDict.setitem c g (_courses self) |})
        | _ => (Raise InvalidGradeError, self)
        end
  | _ => (Raise InvalidCourseError, self)
  end.

(** The function under the [lru_cache] decorator, [displayGPA.__wrapped__]. *)
Definition displayGPA__wrapped__ (self : student) : result string :=
  match _courses self with
  | [] => Ok ("GPA of student " ++ _name self ++ " is 0.0")
  | _ =>
      total <- Num.sum (OrderedDict.values (_courses self)) ;;
      gpa <- Num.truediv total (OrderedDict.len (_courses self)) ;;
      Ok ("GPA of student " ++ _name self ++ " is " ++ Num.format_f 2 gpa)
  end.

(** [Student.__eq__]. *)
Definition Student___eq__ (self other : student) : bool :=
  String.eqb (_name self) (_name other)
  && String.eqb (_number self) (_number other).

(** The class body defines [__eq__] and no [__hash__], so the class's
    [__hash__] is [None]: its instances, and those of the subclass, are
    unhashable. *)
Definition Student___hash__ : option (student -> Z) := None.

(** [Student.displayGPA]: the decorated method, with the function's
    cache. *)
Definition displayGPA_cache : Type := @Functools.cache student string.

Definition displayGPA (c : displayGPA_cache) (self : student) :
  result string * displayGPA_cache :=
  Functools.lru_cache Student___hash__ Student___eq__ 10
                      displayGPA__wrapped__ c self.

(** [Student.displayCourses]. *)
Definition displayCourses (self : student) : result (list string) :=
  Sort.sorted
    (fun x => g <- OrderedDict.getitem x (_courses self) ;; Ok (Py.neg g))
    (map fst
       (filter (fun e => Py.gt (snd e) (Py.NFloat 0))
               (OrderedDict.items (_courses self)))).

(** [Student.__contains__]: a key of [_courses] is a [str], no other
    value equals one. *)
Definition Student___contains__ (self : student) (course : Py.value) : bool :=
  match course with
  | Py.VStr c => OrderedDict.contains c (_courses self)
  | _ => false
  end.

(** *** [ScholarshipStudent] *)

Record scholarship_student : Type := {
  base : student;
  scholarship_amount : Py.value
}.

(** [ScholarshipStudent.__init__]. *)
Definition ScholarshipStudent___init__ (name number amount : Py.value) :
  result scholarship_student :=
  s <- Student___init__ name number ;;
  match amount with
  | Py.VNum a =>
      if Py.lt a (Py.NInt 0) then Raise ValueError
      else Ok {| base := s; scholarship_amount := amount |}
  | _ => Raise TypeError
  end.

(** [ScholarshipStudent.isEligible]. *)
Definition isEligible (c : displayGPA_cache) (self : scholarship_student) :
  result bool * displayGPA_cache :=
  let (r, c') := displayGPA c (base self) in
  (text <- r ;;
   word <- Text.last_item (Text.split text) ;;
   gpa <- Text.float word ;;
   Ok (negb (Qle_bool gpa (35 # 10))),
   c').

(** *** Calling the classes: [StudentMeta.__call__]

    After [__init__] the metaclass registers a [weakref.finalize] for the
    instance.  [Student] declares [__slots__] without ["__weakref__"], so
    its own instances cannot be weakly referenced and the call raises;
    [ScholarshipStudent] declares no slots and its instances can.  The
    registry itself only feeds the instance count and is left out. *)

Inductive pyclass : Type := Student_cls | ScholarshipStudent_cls.

Definition weakrefable (cls : pyclass) : bool :=
  match cls with
  | Student_cls => false
  | ScholarshipStudent_cls => true
  end.

Definition StudentMeta___call__ {A : Type} (cls : pyclass) (init : result A) :
  result A :=
  instance <- init ;;
  if weakrefable cls then Ok instance else Raise TypeError.

(** [Student(name, number)]. *)
Definition Student (name number : Py.value) : result student :=
  StudentMeta___call__ Student_cls (Student___init__ name number).

(** [ScholarshipStudent(name, number, scholarship_amount)]. *)
Definition ScholarshipStudent (name number amount : Py.value) :
  result scholarship_student :=
  StudentMeta___call__ ScholarshipStudent_cls
    (ScholarshipStudent___init__ name number amount).

(** *** The other methods of [Student] *)

(** [Student.__repr__], the function defined in [Student];
    [ScholarshipStudent] overrides it. *)
Definition Student___repr__ (self : student) : string :=
  "Student(" ++ _name self ++ ", " ++ _number self ++ ")".

(** [Student.__iter__], as the list of the courses it yields. *)
Definition Student___iter__ (self : student) : list string :=
  OrderedDict.keys (_courses self).

(** The operand of the comparisons: [float(s.displayGPA().split()[-1])]. *)
Definition parsed_gpa (c : displayGPA_cache) (self : student) :
  result Q * displayGPA_cache :=
  let (r, c') := displayGPA c self in
  (text <- r ;;
   word <- Text.last_item (Text.split text) ;;
   Text.float word,
   c').

(** [Student.__lt__]: the left operand is evaluated first. *)
Definition Student___lt__ (c : displayGPA_cache) (self other : student) :
  result bool * displayGPA_cache :=
  match parsed_gpa c self with
  | (Raise e, c1) => (Raise e, c1)
  | (Ok g1, c1) =>
      match parsed_gpa c1 other with
      | (Raise e, c2) => (Raise e, c2)
      | (Ok g2, c2) => (Ok (negb (Qle_bool g2 g1)), c2)
      end
  end.

(** *** The registry of [StudentMeta]

    [_instances] holds one finalizer for each instance registered, here
    the class of that instance.  The finalizer keeps the instance among
    its own arguments, so it does not fire while the program runs and
    entries are only ever added. *)

Definition instances : Type := list pyclass.

(** [StudentMeta.__call__] with the registry: the finalizer is made
    before it is appended, so a call that raises registers nothing. *)
Definition StudentMeta___call___registering {A : Type} (reg : instances)
           (cls : pyclass) (init : result A) : result A * instances :=
  match init with
  | Ok instance =>
      if weakrefable cls then (Ok instance, (reg ++ [cls])%list)
      else (Raise TypeError, reg)
  | Raise e => (Raise e, reg)
  end.

(** [StudentMeta.count_instances] and [Student.totalStudents]. *)
Definition count_instances (reg : instances) : nat := List.length reg.

Definition totalStudents (reg : instances) : nat := count_instances reg.

(** A call of one of the two classes. *)
Inductive class_call : Type :=
| CallStudent (name number : Py.value)
| CallScholarshipStudent (name number amount : Py.value).

(** Whether the call returns an instance, and the registry after it. *)
Definition construct (reg : instances) (k : class_call) : bool * instances :=
  match k with
  | CallStudent name number =>
      match StudentMeta___call___registering reg Student_cls
              (Student___init__ name number) with
      | (Ok _, reg') => (true, reg')
      | (Raise _, reg') => (false, reg')
      end
  | CallScholarshipStudent name number amount =>
      match StudentMeta___call___registering reg ScholarshipStudent_cls
              (ScholarshipStudent___init__ name number amount) with
      | (Ok _, reg') => (true, reg')
      | (Raise _, reg') => (false, reg')
      end
  end.

(** *** Calls of the methods that read the GPA *)

Inductive gpa_call : Type :=
| CallDisplayGPA (self : student)
| CallIsEligible (self : scholarship_student)
| CallLt (self other : student).

(** The exception a call ends with, if any, and the cache after it. *)
Definition gpa_call_outcome (c : displayGPA_cache) (k : gpa_call) :
  option exn * displayGPA_cache :=
  let raised {A : Type} (r : result A) : option exn :=
    match r with Ok _ => None | Raise e => Some e end in
  match k with
  | CallDisplayGPA s => let (r, c') := displayGPA c s in (raised r, c')
  | CallIsEligible s => let (r, c') := isEligible c s in (raised r, c')
  | CallLt a b => let (r, c') := Student___lt__ c a b in (raised r, c')
  end.

End Advanced.

(** ** Runs of [addGrade] calls

    A caller of the advanced class that catches the validation errors
    goes on with the record the failed call left. *)

Definition base_run (calls : list (string * Py.number)) (s : Base.student) :
  Base.student :=
  fold_left (fun acc e => Base.addGrade acc (fst e) (snd e)) calls s.

Definition advanced_run (calls : list (Py.value * Py.value))
           (s : Advanced.student) : Advanced.student :=
  fold_left (fun acc e => snd (Advanced.addGrade acc (fst e) (snd e))) calls s.

(** A record of the advanced class as [__init__] leaves it. *)
Definition advanced_new (name number : string) : Advanced.student :=
  {| Advanced._name := name;
     Advanced._number := number;
     Advanced._courses := OrderedDict.empty |}.

(** The calls of a run that [addGrade] accepts, as course and grade. *)
Definition accepted (e : Py.value * Py.value) : list (string * Py.number) :=
  match fst (Advanced.addGrade (advanced_new "" "") (fst e) (snd e)), e with
  | Ok _, (Py.VStr c, Py.VNum g) => [(c, g)]
  | _, _ => []
  end.

Definition accepted_calls (calls : list (Py.value * Py.value)) :
  list (string * Py.number) :=
  flat_map accepted calls.

(** A run of calls of the classes: the registry after it. *)
Definition construct_all (calls : list Advanced.class_call)
           (reg : Advanced.instances) : Advanced.instances :=
  fold_left (fun acc k => snd (Advanced.construct acc k)) calls reg.

(** A run of calls of the cached methods: the outcomes, and the cache
    after it. *)
Fixpoint gpa_calls (c : Advanced.displayGPA_cache) (calls : list Advanced.gpa_call) :
  list (option exn) * Advanced.displayGPA_cache :=
  match calls with
  | [] => ([], c)
  | k :: calls' =>
      let (o, c1) := Advanced.gpa_call_outcome c k in
      let (os, c2) := gpa_calls c1 calls' in
      (o :: os, c2)
  end.

(** ** The specification's notions *)

Module Spec.

(** The arithmetic mean of a list of values. *)
Definition total (qs : list Q) : Q := fold_right Qplus 0%Q qs.

Definition mean (qs : list Q) : Q :=
  (total qs / inject_Z (Z.of_nat (List.length qs)))%Q.


(** The sums of the values after each one, from [acc]. *)
Fixpoint running_sums (acc : Q) (qs : list Q) : list Q :=
  match qs with
  | [] => []
  | q :: qs' => (acc + q)%Q :: running_sums (acc + q)%Q qs'
  end.

(** Floating-point arithmetic computes the mean of the grades without
    rounding: every grade, every running sum, the count and the mean
    are binary64 numbers. *)
Definition exact (grades : list Py.number) : bool :=
  let qs := map Py.val grades in
  forallb Float64.is_exact qs
  && forallb Float64.is_exact (running_sums 0 qs)
  && Float64.is_exact (inject_Z (Z.of_nat (List.length grades)))
  && Float64.is_exact (mean qs).



(** The order in which courses were first added. *)
Definition insertion_order (cs : list string) : list string :=
  fold_left (fun acc c => if existsb (String.eqb c) acc then acc else (acc ++ [c])%list)
            cs [].

(** The grade a course was given last. *)
Definition last_grade {V : Type} (calls : list (string * V)) (c : string) : option V :=
  option_map snd (find (fun e => String.eqb (fst e) c) (rev calls)).

(** The stored grade of a course, 0 for a course that is not stored. *)
Definition grade_of (d : OrderedDict.t Py.number) (c : string) : Py.number :=
  match OrderedDict.getitem c d with
  | Ok g => g
  | Raise _ => Py.NInt 0
  end.

(** A passed course: its grade is above 0.0. *)
Definition passed (g : Py.number) : bool := Py.gt g (Py.NFloat 0).

(** The passed courses, in the order of the enumeration. *)
Definition passed_items (d : OrderedDict.t Py.number) : list string :=
  map fst (filter (fun e => passed (snd e)) (OrderedDict.items d)).

(** A grade within [0.0, 4.0]. *)
Definition in_range (g : Py.number) : Prop :=
  (0 <= Py.val g /\ Py.val g <= 4)%Q.

(** Every stored course code has at least 3 characters. *)
Definition long_keys (d : OrderedDict.t Py.number) : Prop :=
  Forall (fun k => (3 <= String.length k)%nat) (OrderedDict.keys d).

End Spec.

(** A grade outside [0.0, 4.0]. *)
Definition out_of_range (g : Py.number) : Prop :=
  (Py.val g < 0 \/ 4 < Py.val g)%Q.

(** ** Records used as examples *)

(** The second student of the scripts, with her two passed courses. *)
Definition jessica : Advanced.student :=
  {| Advanced._name := "Jessica";
     Advanced._number := "123456";
     Advanced._courses := [("ipc144", Py.NFloat 4); ("cpp244", Py.NFloat (35 # 10))] |}.

Definition jessica_scholar : Advanced.scholarship_student :=
  {| Advanced.base := jessica;
     Advanced.scholarship_amount := Py.VNum (Py.NInt 5000) |}.

(** The same student with a failed third course, as lab6a.py has her. *)
Definition jessica_base : Base.student :=
  {| Base.name := "Jessica";
     Base.number := "123456";
     Base.courses := [("ipc144", Py.NFloat 4); ("cpp244", Py.NFloat (35 # 10));
                      ("cpp344", Py.NFloat 0)] |}.

Definition jessica_failed : Advanced.student :=
  {| Advanced._name := "Jessica";
     Advanced._number := "123456";
     Advanced._courses := [("ipc144", Py.NFloat 4); ("cpp244", Py.NFloat (35 # 10));
                           ("cpp344", Py.NFloat 0)] |}.

(** A lab6a.py record with a negative and a zero grade. *)
Definition john_base : Base.student :=
  {| Base.name := "John";
     Base.number := "013454900";
     Base.courses := [("ops445", Py.NFloat 3); ("ops245", Py.NFloat (-1));
                      ("uli101", Py.NInt 0); ("ops345", Py.NInt 2)] |}.

(** An advanced record with two courses of the same grade. *)
Definition john : Advanced.student :=
  {| Advanced._name := "John";
     Advanced._number := "013454900";
     Advanced._courses := [("uli101", Py.NFloat 1); ("ops445", Py.NFloat 3);
                           ("ops245", Py.NFloat 2); ("ops345", Py.NInt 3)] |}.




(** * Properties *)

(** ** The ordered dictionary *)

Section OrderedDictFacts.
Context {V : Type}.
Implicit Types (d : OrderedDict.t V) (k : string) (v : V).

Lemma wf_empty : OrderedDict.wf (@OrderedDict.empty V).
Proof. constructor. Qed.

Lemma contains_keys k d :
  OrderedDict.contains k d = true <-> In k (OrderedDict.keys d).
Proof.
  unfold OrderedDict.contains, OrderedDict.keys.
  rewrite existsb_exists, in_map_iff. split.
  - intros [e [He Hk]]. apply String.eqb_eq in Hk. now exists e.
  - intros [e [Hk He]]. exists e. split; [assumption|]. now apply String.eqb_eq.
Qed.

Lemma contains_false_keys k d :
  OrderedDict.contains k d = false <-> ~ In k (OrderedDict.keys d).
Proof.
  rewrite <- contains_keys. destruct (OrderedDict.contains k d); split; congruence.
Qed.

Lemma keys_setitem k v d :
  OrderedDict.keys (OrderedDict.setitem k v d) =
  if OrderedDict.contains k d then OrderedDict.keys d
  else (OrderedDict.keys d ++ [k])%list.
Proof.
  induction d as [|[k' v'] d IH]; simpl; [reflexivity|].
  destruct (String.eqb k' k) eqn:E; simpl; [reflexivity|].
  rewrite IH. now destruct (OrderedDict.contains k d).
Qed.

Lemma getitem_setitem_same k v d :
  OrderedDict.getitem k (OrderedDict.setitem k v d) = Ok v.
Proof.
  induction d as [|[k' v'] d IH]; simpl.
  - now rewrite String.eqb_refl.
  - destruct (String.eqb k' k) eqn:E; simpl; now rewrite E.
Qed.

Lemma getitem_setitem_other k k' v d :
  k <> k' ->
  OrderedDict.getitem k' (OrderedDict.setitem k v d) = OrderedDict.getitem k' d.
Proof.
  intros Hne. induction d as [|[k0 v0] d IH]; simpl.
  - apply String.eqb_neq in Hne. now rewrite Hne.
  - destruct (String.eqb k0 k) eqn:E; simpl.
    + apply String.eqb_eq in E. subst k0.
      apply String.eqb_neq in Hne. now rewrite Hne.
    + now rewrite IH.
Qed.

Lemma getitem_contains k d :
  OrderedDict.contains k d = true <-> exists v, OrderedDict.getitem k d = Ok v.
Proof.
  induction d as [|[k' v'] d IH]; simpl.
  - split; [discriminate | intros [v Hv]; discriminate].
  - destruct (String.eqb k' k); simpl; [|exact IH].
    split; [now exists v' | reflexivity].
Qed.

(** The position of a key only depends on the enumeration of keys. *)
Lemma index_keys k d d' :
  OrderedDict.keys d = OrderedDict.keys d' ->
  OrderedDict.index k d = OrderedDict.index k d'.
Proof.
  revert d'. induction d as [|[k0 v0] d IH]; intros [|[k1 v1] d'] H;
    simpl in *; try discriminate; [reflexivity|].
  injection H as -> H. now rewrite (IH d' H).
Qed.

Lemma wf_setitem k v d : OrderedDict.wf d -> OrderedDict.wf (OrderedDict.setitem k v d).
Proof.
  unfold OrderedDict.wf. intros H. rewrite keys_setitem.
  destruct (OrderedDict.contains k d) eqn:E; [assumption|].
  apply contains_false_keys in E.
  apply NoDup_app; [assumption | repeat constructor; intros [] | ].
  intros x Hx [<-|[]]. contradiction.
Qed.

Lemma getitem_In k v d : OrderedDict.getitem k d = Ok v -> In (k, v) d.
Proof.
  induction d as [|[k' v'] d IH]; simpl; [discriminate|].
  destruct (String.eqb k' k) eqn:E.
  - apply String.eqb_eq in E. intros [= ->]. left. now subst.
  - intros H. right. now apply IH.
Qed.

Lemma In_getitem k v d : OrderedDict.wf d -> In (k, v) d -> OrderedDict.getitem k d = Ok v.
Proof.
  unfold OrderedDict.wf. induction d as [|[k' v'] d IH]; simpl; [intros _ []|].
  intros Hnd [Heq|Hin].
  - injection Heq as -> ->. now rewrite String.eqb_refl.
  - apply NoDup_cons_iff in Hnd. destruct Hnd as [Hk' Hnd].
    destruct (String.eqb k' k) eqn:E; [|now apply IH].
    apply String.eqb_eq in E. subst k'. exfalso. apply Hk'.
    change k with (fst (k, v)). now apply in_map.
Qed.

Lemma wf_assign_all l d : OrderedDict.wf d -> OrderedDict.wf (OrderedDict.assign_all l d).
Proof.
  revert d. induction l as [|[k v] l IH]; intros d H; simpl; [assumption|].
  apply IH. now apply wf_setitem.
Qed.

Lemma assign_all_app l1 l2 d :
  OrderedDict.assign_all (l1 ++ l2)%list d = OrderedDict.assign_all l2 (OrderedDict.assign_all l1 d).
Proof. apply fold_left_app. Qed.

End OrderedDictFacts.

(** ** Numbers and their text *)











(** The rounding picks a nearest integer. *)
Lemma round_half_even_nearest (q : Q) :
  (Qabs (inject_Z (Text.round_half_even q) - q) <= 1 # 2)%Q.
Proof.
  unfold Text.round_half_even.
  pose proof (Qfloor_le q) as Hlo. pose proof (Qlt_floor q) as Hhi.
  rewrite inject_Z_plus in Hhi. change (inject_Z 1) with 1%Q in Hhi.
  apply Qabs_Qle_condition.
  destruct (Qcompare_spec (q - inject_Z (Qfloor q)) (1 # 2)) as [He|Hl|Hg];
    [destruct (Z.even (Qfloor q))| |];
    rewrite ?inject_Z_plus; change (inject_Z 1) with 1%Q;
    generalize dependent (inject_Z (Qfloor q)); intros f; intros; split; lra.
Qed.

(** The number that [format_f] prints is the value rounded to [d]
    places: it is within half a unit of the last place. *)
Lemma scaled_nearest (d : nat) (q : Q) :
  (Qabs (inject_Z (Text.scaled d q) / inject_Z (10 ^ Z.of_nat d) - Qabs q)
   <= (1 # 2) / inject_Z (10 ^ Z.of_nat d))%Q.
Proof.
  unfold Text.scaled.
  set (p := inject_Z (10 ^ Z.of_nat d)).
  assert (Hp : (0 < p)%Q).
  { unfold p. rewrite <- (Zlt_Qlt 0). apply Z.pow_pos_nonneg; lia. }
  pose proof (round_half_even_nearest (Qabs q * p)) as H.
  set (n := inject_Z (Text.round_half_even (Qabs q * p))) in *.
  assert (E : (n / p - Qabs q == (n - Qabs q * p) / p)%Q) by (field; lra).
  rewrite E. unfold Qdiv at 1. rewrite Qabs_Qmult.
  rewrite (Qabs_pos (/ p)); [|apply Qlt_le_weak, Qinv_lt_0_compat, Hp].
  apply Qmult_le_compat_r; [exact H|].
  apply Qlt_le_weak, Qinv_lt_0_compat, Hp.
Qed.

(** ** The GPA summary *)








Example base_displayGPA_john :
  Base.displayGPA
    (base_run [("ops445", Py.NFloat 3); ("ops245", Py.NFloat 2);
               ("uli101", Py.NFloat 1)]
              (Base.Student "John" (inr "013454900")))
  = Ok "GPA of student John is 2.0".
Proof. reflexivity. Qed.

Example base_displayGPA_jessica :
  Base.displayGPA jessica_base = Ok "GPA of student Jessica is 2.5".
Proof. reflexivity. Qed.

(** C1 as stated fails on a record without courses: the text returned is
    the whole summary line, not "0.0". *)
Lemma displayGPA_empty_is_not_bare :
  ~ (forall s : Base.student,
        Base.courses s = [] -> Base.displayGPA s = Ok "0.0").
Proof.
  intros H.
  specialize (H (Base.Student "John" (inr "013454900")) eq_refl).
  discriminate H.
Qed.

(** ** Validation in [addGrade] *)

Lemma out_of_range_check (g : Py.number) :
  out_of_range g ->
  negb (Py.le (Py.NFloat 0) g && Py.le g (Py.NFloat 4)) = true.
Proof.
  unfold out_of_range, Py.le. cbn [Py.val]. intros H.
  apply negb_true_iff, andb_false_iff.
  destruct H as [H|H]; [left|right];
    (destruct (Qle_bool _ _) eqn:E; [|reflexivity]);
    apply Qle_bool_iff in E; lra.
Qed.

(** A call that raises leaves the record as it was. *)
Lemma addGrade_raise_unchanged (s : Advanced.student) (course grade : Py.value)
      (e : exn) :
  fst (Advanced.addGrade s course grade) = Raise e ->
  snd (Advanced.addGrade s course grade) = s.
Proof.
  unfold Advanced.addGrade.
  destruct course as [|n|c]; try reflexivity.
  destruct (String.length c <? 3)%nat; try reflexivity.
  destruct grade as [|g|t]; try reflexivity.
  destruct (negb _); [reflexivity|discriminate].
Qed.

(** C2, as amended.  In the advanced variant [addGrade] raises
    [InvalidCourseError] when the course text has fewer than 3 characters,
    whatever the grade; it raises [InvalidGradeError] when the course text
    has at least 3 characters and the grade is outside [0.0, 4.0]; and a
    call that raises leaves the record, so its courses, as it was. *)
Theorem addGrade_rejects (s : Advanced.student) (c : string) (grade : Py.value) :
  ((String.length c < 3)%nat ->
   Advanced.addGrade s (Py.VStr c) grade = (Raise InvalidCourseError, s))
  /\ (forall g, (3 <= String.length c)%nat -> grade = Py.VNum g ->
                out_of_range g ->
      Advanced.addGrade s (Py.VStr c) grade = (Raise InvalidGradeError, s))
  /\ (forall e, fst (Advanced.addGrade s (Py.VStr c) grade) = Raise e ->
      Advanced._courses (snd (Advanced.addGrade s (Py.VStr c) grade)) =
      Advanced._courses s).
Proof.
  repeat split.
  - intros H. unfold Advanced.addGrade.
    apply Nat.ltb_lt in H. now rewrite H.
  - intros g Hlen -> Hg. unfold Advanced.addGrade.
    apply Nat.ltb_ge in Hlen. rewrite Hlen.
    now rewrite (out_of_range_check g Hg).
  - intros e H. now rewrite (addGrade_raise_unchanged _ _ _ _ H).
Qed.

Lemma addGrade_rejects_witness :
  Advanced.addGrade jessica (Py.VStr "ab") (Py.VNum (Py.NFloat 3)) =
    (Raise InvalidCourseError, jessica)
  /\ Advanced.addGrade jessica (Py.VStr "abc123") (Py.VNum (Py.NFloat (9 # 2))) =
    (Raise InvalidGradeError, jessica)
  /\ Advanced._courses
       (snd (Advanced.addGrade jessica (Py.VStr "abc123") (Py.VNum (Py.NInt (-1))))) =
     Advanced._courses jessica.
Proof.
  split; [|split].
  - apply (addGrade_rejects jessica "ab" (Py.VNum (Py.NFloat 3))).
    simpl. lia.
  - apply (addGrade_rejects jessica "abc123" (Py.VNum (Py.NFloat (9 # 2)))
             ) with (g := Py.NFloat (9 # 2)).
    + simpl. lia.
    + reflexivity.
    + right. reflexivity.
  - apply (addGrade_rejects jessica "abc123" (Py.VNum (Py.NInt (-1))))
      with (e := InvalidGradeError).
    reflexivity.
Defined.

(** C2 as stated fails when both rules are broken at once: the course is
    checked first, so a grade outside the range does not give
    [InvalidGradeError] when the course text is too short. *)
Lemma addGrade_short_course_first :
  ~ (forall (s : Advanced.student) (c : string) (g : Py.number),
        ((String.length c < 3)%nat ->
         fst (Advanced.addGrade s (Py.VStr c) (Py.VNum g)) = Raise InvalidCourseError)
        /\ (out_of_range g ->
         fst (Advanced.addGrade s (Py.VStr c) (Py.VNum g)) = Raise InvalidGradeError)).
Proof.
  intros H.
  destruct (H jessica "ab" (Py.NFloat 5)) as [_ H2].
  assert (Hr : out_of_range (Py.NFloat 5)) by (right; reflexivity).
  specialize (H2 Hr). discriminate H2.
Qed.

(** C10, as amended.  In the advanced variant [addGrade] raises
    [InvalidCourseError] for every course that is not a [str], whatever
    the grade; it raises [InvalidGradeError] when the course is a [str] of
    at least 3 characters and the grade is not a number; in both cases the
    record, so its courses, is as before the call. *)
Theorem addGrade_type_checks (s : Advanced.student) (course grade : Py.value) :
  (Py.isinstance_str course = false ->
   Advanced.addGrade s course grade = (Raise InvalidCourseError, s))
  /\ (forall c, course = Py.VStr c -> (3 <= String.length c)%nat ->
                Py.isinstance_int_float grade = false ->
      Advanced.addGrade s course grade = (Raise InvalidGradeError, s)).
Proof.
  split.
  - intros H. destruct course; try reflexivity. discriminate H.
  - intros c -> Hlen Hg. unfold Advanced.addGrade.
    apply Nat.ltb_ge in Hlen. rewrite Hlen.
    destruct grade; try reflexivity. discriminate Hg.
Qed.

Lemma addGrade_type_checks_witness :
  Advanced.addGrade jessica (Py.VNum (Py.NInt 445)) (Py.VNum (Py.NFloat 3)) =
    (Raise InvalidCourseError, jessica)
  /\ Advanced.addGrade jessica (Py.VStr "ops445") (Py.VStr "A") =
    (Raise InvalidGradeError, jessica).
Proof.
  split.
  - apply (addGrade_type_checks jessica (Py.VNum (Py.NInt 445))
                                (Py.VNum (Py.NFloat 3))).
    reflexivity.
  - apply (addGrade_type_checks jessica (Py.VStr "ops445") (Py.VStr "A"))
      with (c := "ops445").
    + reflexivity.
    + simpl. lia.
    + reflexivity.
Defined.

(** C10 as stated fails when the course is rejected too: the course is
    checked first, so a grade that is not a number does not give
    [InvalidGradeError] then. *)
Lemma addGrade_bad_course_first :
  ~ (forall (s : Advanced.student) (course grade : Py.value),
        (Py.isinstance_str course = false ->
         fst (Advanced.addGrade s course grade) = Raise InvalidCourseError)
        /\ (Py.isinstance_int_float grade = false ->
         fst (Advanced.addGrade s course grade) = Raise InvalidGradeError)).
Proof.
  intros H.
  destruct (H jessica Py.VNone (Py.VStr "A")) as [_ H2].
  specialize (H2 eq_refl). discriminate H2.
Qed.

(** ** The cache on [displayGPA] *)

(** Hashing [self] fails before the cache is looked up and before the
    wrapped function runs: the decorated method raises on every record
    and with every cache. *)
Lemma displayGPA_unhashable (c : Advanced.displayGPA_cache) (s : Advanced.student) :
  Advanced.displayGPA c s = (Raise TypeError, c).
Proof. reflexivity. Qed.

Lemma isEligible_unhashable (c : Advanced.displayGPA_cache)
      (s : Advanced.scholarship_student) :
  Advanced.isEligible c s = (Raise TypeError, c).
Proof. reflexivity. Qed.

Section Stale.
Context {A R : Type}.
Variable hash : A -> Z.
Variable eq_ : A -> A -> bool.
Variable maxsize : nat.
Variable f : A -> result R.

(** With a class that can be hashed, a call that finds its key in the
    cache returns the stored result and does not run the function. *)
Lemma lru_cache_hit (c : @Functools.cache A R) (x : A) (e : Z * A * R) :
  find (Functools.hit eq_ (hash x) x) c = Some e ->
  fst (Functools.lru_cache (Some hash) eq_ maxsize f c x) = Ok (snd e).
Proof.
  intros H. unfold Functools.lru_cache. now rewrite H.
Qed.

(** So a second call on a record that hashes and compares as at the first
    call returns the first result, whatever the record holds by then:
    nothing removes the entry when the record changes. *)
Lemma lru_cache_stale (x x' : A) (r : R) :
  (0 < maxsize)%nat ->
  f x = Ok r -> hash x' = hash x -> eq_ x x' = true ->
  let c1 := snd (Functools.lru_cache (Some hash) eq_ maxsize f [] x) in
  fst (Functools.lru_cache (Some hash) eq_ maxsize f c1 x') = Ok r.
Proof.
  intros Hm Hf Hh He. unfold Functools.lru_cache at 2. simpl find. rewrite Hf.
  destruct maxsize as [|m]; [lia|]. cbn [snd firstn].
  unfold Functools.lru_cache. cbn [find]. unfold Functools.hit at 1.
  cbn [fst snd]. rewrite Hh, Z.eqb_refl, He. reflexivity.
Qed.

End Stale.

(** C3, at the failing input.  On a new advanced record: an accepted
    [addGrade], a [displayGPA] call, a second accepted [addGrade] and a
    second [displayGPA] call.  Both [displayGPA] calls raise [TypeError],
    where the wrapped function gives the GPA of the courses as they are
    at each call. *)
Theorem displayGPA_after_addGrade_raises :
  let s1 := advanced_new "Jessica" "123456" in
  let '(o1, s2) := Advanced.addGrade s1 (Py.VStr "ipc144") (Py.VNum (Py.NFloat 4)) in
  let '(r1, c1) := Advanced.displayGPA [] s2 in
  let '(o2, s3) := Advanced.addGrade s2 (Py.VStr "cpp244") (Py.VNum (Py.NFloat 3)) in
  let '(r2, c2) := Advanced.displayGPA c1 s3 in
  o1 = Ok tt /\ o2 = Ok tt
  /\ r1 = Raise TypeError /\ r2 = Raise TypeError
  /\ Advanced.displayGPA__wrapped__ s2 = Ok "GPA of student Jessica is 4.00"
  /\ Advanced.displayGPA__wrapped__ s3 = Ok "GPA of student Jessica is 3.50".
Proof. vm_compute. repeat split. Qed.

(** The lab6a.py method has no cache: after an [addGrade] it computes
    the line from the updated courses. *)
Lemma base_displayGPA_recomputes (s : Base.student) (c : string) (g : Py.number) :
  Base.displayGPA (Base.addGrade s c g) =
  Base.displayGPA {| Base.name := Base.name s;
                     Base.number := Base.number s;
                     Base.courses := OrderedDict.setitem c g (Base.courses s) |}.
Proof. reflexivity. Qed.

(** Were the instances hashable (here with a hash of the name's length),
    the cache would answer the second call with the first call's text. *)
Example displayGPA_hashable_is_stale :
  let cached := Functools.lru_cache
                  (Some (fun s => Z.of_nat (String.length (Advanced._name s))))
                  Advanced.Student___eq__ 10 Advanced.displayGPA__wrapped__ in
  let s2 := snd (Advanced.addGrade (advanced_new "Jessica" "123456")
                                   (Py.VStr "ipc144") (Py.VNum (Py.NFloat 4))) in
  let s3 := snd (Advanced.addGrade s2 (Py.VStr "cpp244") (Py.VNum (Py.NFloat 3))) in
  fst (cached (snd (cached [] s2)) s3) = Ok "GPA of student Jessica is 4.00".
Proof. vm_compute. reflexivity. Qed.

(** ** [ScholarshipStudent] *)

(** C8, at the failing input.  The scholarship student of the script has
    grades 4.0 and 3.5: the text the wrapped function computes ends in
    3.75, which parses to a value above 3.5, but [isEligible] raises
    [TypeError] instead of returning [True]. *)
Theorem isEligible_raises :
  Advanced.ScholarshipStudent (Py.VStr "Jessica") (Py.VNum (Py.NInt 123456))
                              (Py.VNum (Py.NInt 5000))
    = Ok {| Advanced.base := advanced_new "Jessica" "123456";
            Advanced.scholarship_amount := Py.VNum (Py.NInt 5000) |}
  /\ advanced_run [(Py.VStr "ipc144", Py.VNum (Py.NFloat 4));
                   (Py.VStr "cpp244", Py.VNum (Py.NFloat (35 # 10)))]
                  (advanced_new "Jessica" "123456") = jessica
  /\ Advanced.isEligible [] jessica_scholar = (Raise TypeError, [])
  /\ (text <- Advanced.displayGPA__wrapped__ jessica ;;
      word <- Text.last_item (Text.split text) ;;
      gpa <- Text.float word ;;
      Ok (word, negb (Qle_bool gpa (35 # 10)))) = Ok ("3.75", true).
Proof. vm_compute. repeat split. Qed.

(** The amount of a constructed scholarship student is a number that is
    not negative, and a negative amount makes the constructor raise. *)
Lemma ScholarshipStudent_amount (name number amount : Py.value)
      (s : Advanced.scholarship_student) :
  Advanced.ScholarshipStudent name number amount = Ok s ->
  exists a, Advanced.scholarship_amount s = Py.VNum a /\ (0 <= Py.val a)%Q.
Proof.
  unfold Advanced.ScholarshipStudent, Advanced.StudentMeta___call__,
    Advanced.ScholarshipStudent___init__.
  destruct (Advanced.Student___init__ name number) as [b|e]; [|discriminate].
  cbn [bind]. destruct amount as [|a|t]; try discriminate.
  destruct (Py.lt a (Py.NInt 0)) eqn:E; [discriminate|].
  cbn. intros [= <-]. exists a. split; [reflexivity|].
  unfold Py.lt in E. apply negb_false_iff, Qle_bool_iff in E. exact E.
Qed.

Lemma ScholarshipStudent_negative (name number : Py.value) (a : Py.number) :
  (Py.val a < 0)%Q ->
  exists e, Advanced.ScholarshipStudent name number (Py.VNum a) = Raise e.
Proof.
  intros H.
  unfold Advanced.ScholarshipStudent, Advanced.StudentMeta___call__,
    Advanced.ScholarshipStudent___init__.
  destruct (Advanced.Student___init__ name number) as [b|e];
    [|now exists e].
  cbn [bind].
  assert (E : Py.lt a (Py.NInt 0) = true).
  { unfold Py.lt. apply negb_true_iff.
    destruct (Qle_bool _ _) eqn:E; [|reflexivity].
    apply Qle_bool_iff in E. change (Py.val (Py.NInt 0)) with 0%Q in E. lra. }
  rewrite E. now exists ValueError.
Qed.

(** Calling [Student] itself raises: its instances have no slot for weak
    references. *)
Lemma Student_call_raises (name number : Py.value) :
  exists e, Advanced.Student name number = Raise e.
Proof.
  unfold Advanced.Student, Advanced.StudentMeta___call__.
  destruct (Advanced.Student___init__ name number) as [s|e]; cbn;
    [now exists TypeError | now exists e].
Qed.

(** ** Equality of records *)

Lemma Student_eq_spec (a b : Advanced.student) :
  Advanced.Student___eq__ a b = true <->
  Advanced._name a = Advanced._name b /\ Advanced._number a = Advanced._number b.
Proof.
  unfold Advanced.Student___eq__.
  rewrite andb_true_iff, !String.eqb_eq. reflexivity.
Qed.

Lemma str_of_int_ok (z : Z) (t : string) :
  Text.str_of_int z = Ok t -> t = Text.str_int z.
Proof.
  unfold Text.str_of_int. destruct (_ <? _)%nat; [discriminate|].
  now intros [= <-].
Qed.




(** ** Overwriting a grade *)

Section SetitemFacts.
Context {V : Type}.
Implicit Types (d : OrderedDict.t V) (k : string) (v : V).

Lemma contains_setitem k k' v d :
  OrderedDict.contains k (OrderedDict.setitem k' v d) =
  String.eqb k' k || OrderedDict.contains k d.
Proof.
  induction d as [|[k0 v0] d IH]; simpl.
  - now rewrite orb_false_r.
  - destruct (String.eqb k0 k') eqn:E; simpl.
    + apply String.eqb_eq in E. subst k0.
      now destruct (String.eqb k' k).
    + rewrite IH. destruct (String.eqb k0 k), (String.eqb k' k); reflexivity.
Qed.

(** Assigning to a key that is present keeps the enumeration and the
    key's position, and stores the value. *)
Lemma setitem_present k v d :
  OrderedDict.contains k d = true ->
  OrderedDict.keys (OrderedDict.setitem k v d) = OrderedDict.keys d
  /\ OrderedDict.index k (OrderedDict.setitem k v d) = OrderedDict.index k d
  /\ OrderedDict.getitem k (OrderedDict.setitem k v d) = Ok v.
Proof.
  intros H.
  assert (Hk : OrderedDict.keys (OrderedDict.setitem k v d) = OrderedDict.keys d)
    by now rewrite keys_setitem, H.
  split; [exact Hk|]. split.
  - now apply index_keys.
  - apply getitem_setitem_same.
Qed.

End SetitemFacts.

Lemma base_run_courses (calls : list (string * Py.number)) (s : Base.student) :
  Base.courses (base_run calls s) = OrderedDict.assign_all calls (Base.courses s).
Proof.
  revert s. induction calls as [|e calls IH]; intros s; simpl; [reflexivity|].
  now rewrite IH.
Qed.

(** An accepted call is a call with a text and a number, and it assigns. *)
Lemma addGrade_ok (s : Advanced.student) (course grade : Py.value) :
  fst (Advanced.addGrade s course grade) = Ok tt ->
  exists c g, course = Py.VStr c /\ grade = Py.VNum g
    /\ (3 <= String.length c)%nat
    /\ Advanced._courses (snd (Advanced.addGrade s course grade)) =
       OrderedDict.setitem c g (Advanced._courses s).
Proof.
  unfold Advanced.addGrade.
  destruct course as [|n|c]; try discriminate.
  destruct (String.length c <? 3)%nat eqn:El; try discriminate.
  destruct grade as [|g|t]; try discriminate.
  destruct (negb _); [discriminate|].
  intros _. exists c, g. apply Nat.ltb_ge in El. now repeat split.
Qed.

(** Whether a call is accepted does not depend on the record. *)
Lemma addGrade_outcome (s s' : Advanced.student) (course grade : Py.value) :
  fst (Advanced.addGrade s course grade) = fst (Advanced.addGrade s' course grade).
Proof.
  unfold Advanced.addGrade.
  destruct course as [|n|c]; try reflexivity.
  destruct (String.length c <? 3)%nat; try reflexivity.
  destruct grade as [|g|t]; try reflexivity.
  now destruct (negb _).
Qed.

Lemma addGrade_outcomes (s : Advanced.student) (course grade : Py.value) :
  fst (Advanced.addGrade s course grade) = Ok tt
  \/ exists e, fst (Advanced.addGrade s course grade) = Raise e.
Proof.
  destruct (fst (Advanced.addGrade s course grade)) as [[]|e];
    [now left | right; now exists e].
Qed.

Lemma addGrade_wf (s : Advanced.student) (course grade : Py.value) :
  OrderedDict.wf (Advanced._courses s) ->
  OrderedDict.wf (Advanced._courses (snd (Advanced.addGrade s course grade))).
Proof.
  intros H.
  destruct (addGrade_outcomes s course grade) as [Hok|[e He]].
  - destruct (addGrade_ok _ _ _ Hok) as (c & g & _ & _ & _ & ->).
    now apply wf_setitem.
  - now rewrite (addGrade_raise_unchanged _ _ _ _ He).
Qed.

Lemma advanced_run_wf (calls : list (Py.value * Py.value)) (s : Advanced.student) :
  OrderedDict.wf (Advanced._courses s) ->
  OrderedDict.wf (Advanced._courses (advanced_run calls s)).
Proof.
  revert s. induction calls as [|e calls IH]; intros s H; simpl; [assumption|].
  apply IH. now apply addGrade_wf.
Qed.

Lemma addGrade_accepts (s : Advanced.student) (c : string) (g : Py.number) :
  (3 <= String.length c)%nat -> Spec.in_range g ->
  Advanced.addGrade s (Py.VStr c) (Py.VNum g) =
  (Ok tt, {| Advanced._name := Advanced._name s;
             Advanced._number := Advanced._number s;
             Advanced._courses := OrderedDict.setitem c g (Advanced._courses s) |}).
Proof.
  intros Hlen [H0 H4]. unfold Advanced.addGrade.
  apply Nat.ltb_ge in Hlen. rewrite Hlen.
  assert (E : Py.le (Py.NFloat 0) g && Py.le g (Py.NFloat 4) = true).
  { apply andb_true_iff. unfold Py.le. now rewrite !Qle_bool_iff. }
  now rewrite E.
Qed.

Lemma addGrade_long_keys (s : Advanced.student) (course grade : Py.value) :
  Spec.long_keys (Advanced._courses s) ->
  Spec.long_keys (Advanced._courses (snd (Advanced.addGrade s course grade))).
Proof.
  intros H.
  destruct (addGrade_outcomes s course grade) as [Hok|[e He]].
  - destruct (addGrade_ok _ _ _ Hok) as (c & g & _ & _ & Hlen & ->).
    unfold Spec.long_keys. rewrite keys_setitem.
    destruct (OrderedDict.contains c (Advanced._courses s)); [assumption|].
    apply Forall_app. split; [assumption | now repeat constructor].
  - now rewrite (addGrade_raise_unchanged _ _ _ _ He).
Qed.

Lemma advanced_run_long_keys (calls : list (Py.value * Py.value))
      (s : Advanced.student) :
  Spec.long_keys (Advanced._courses s) ->
  Spec.long_keys (Advanced._courses (advanced_run calls s)).
Proof.
  revert s. induction calls as [|e calls IH]; intros s H; simpl; [assumption|].
  apply IH. now apply addGrade_long_keys.
Qed.

(** C6.  Calling [addGrade] with a course that is already stored and a
    new grade overwrites the grade and leaves the enumeration of the
    courses, so the course's position, as it was: in lab6a.py for every
    grade, in the advanced variant (where the call is then accepted) for
    every grade within [0.0, 4.0]; and after any sequence of [addGrade]
    calls on a new record no course is stored twice. *)
Theorem addGrade_overwrites_in_place :
  (forall (s : Base.student) (c : string) (g : Py.number),
      OrderedDict.contains c (Base.courses s) = true ->
      let d' := Base.courses (Base.addGrade s c g) in
      OrderedDict.keys d' = OrderedDict.keys (Base.courses s)
      /\ OrderedDict.index c d' = OrderedDict.index c (Base.courses s)
      /\ OrderedDict.getitem c d' = Ok g)
  /\ (forall (name number : string) (calls : list (Py.value * Py.value))
             (c : string) (g : Py.number),
      let a := advanced_run calls (advanced_new name number) in
      OrderedDict.contains c (Advanced._courses a) = true ->
      Spec.in_range g ->
      let r := Advanced.addGrade a (Py.VStr c) (Py.VNum g) in
      let d' := Advanced._courses (snd r) in
      fst r = Ok tt
      /\ OrderedDict.keys d' = OrderedDict.keys (Advanced._courses a)
      /\ OrderedDict.index c d' = OrderedDict.index c (Advanced._courses a)
      /\ OrderedDict.getitem c d' = Ok g)
  /\ (forall name number calls,
      NoDup (OrderedDict.keys
               (Base.courses (base_run calls (Base.Student name number)))))
  /\ (forall name number calls,
      NoDup (OrderedDict.keys
               (Advanced._courses (advanced_run calls (advanced_new name number))))).
Proof.
  repeat apply conj.
  - intros s c g H. now apply setitem_present.
  - intros name number calls c g a H Hg.
    assert (Hlen : (3 <= String.length c)%nat).
    { assert (Hk : Spec.long_keys (Advanced._courses a))
        by (apply advanced_run_long_keys; constructor).
      unfold Spec.long_keys in Hk. rewrite Forall_forall in Hk.
      now apply Hk, contains_keys. }
    rewrite (addGrade_accepts a c g Hlen Hg). cbn [fst snd Advanced._courses].
    split; [reflexivity | now apply setitem_present].
  - intros name number calls. rewrite base_run_courses.
    apply (wf_assign_all calls). apply wf_empty.
  - intros name number calls.
    apply (advanced_run_wf calls). apply wf_empty.
Qed.

Lemma addGrade_overwrites_in_place_witness :
  (let d' := Base.courses (Base.addGrade jessica_base "ipc144" (Py.NFloat 2)) in
   OrderedDict.keys d' = ["ipc144"; "cpp244"; "cpp344"]
   /\ OrderedDict.index "ipc144" d' = Some 0%nat
   /\ OrderedDict.getitem "ipc144" d' = Ok (Py.NFloat 2))
  /\ (let r := Advanced.addGrade jessica (Py.VStr "cpp244")
                                 (Py.VNum (Py.NFloat 2)) in
      let d' := Advanced._courses (snd r) in
      fst r = Ok tt
      /\ OrderedDict.keys d' = ["ipc144"; "cpp244"]
      /\ OrderedDict.index "cpp244" d' = Some 1%nat
      /\ OrderedDict.getitem "cpp244" d' = Ok (Py.NFloat 2)).
Proof.
  split.
  - apply (proj1 addGrade_overwrites_in_place jessica_base "ipc144" (Py.NFloat 2)).
    reflexivity.
  - apply (proj1 (proj2 addGrade_overwrites_in_place) "Jessica" "123456"
             [(Py.VStr "ipc144", Py.VNum (Py.NFloat 4));
              (Py.VStr "cpp244", Py.VNum (Py.NFloat (35 # 10)))]
             "cpp244" (Py.NFloat 2)).
    + reflexivity.
    + split; unfold Qle; simpl; lia.
Defined.

(** ** The stable sort *)

Lemma Forall_perm {A : Type} (P : A -> Prop) (l l' : list A) :
  Permutation l l' -> Forall P l -> Forall P l'.
Proof.
  intros Hp H. rewrite Forall_forall in *. intros x Hx. apply H.
  apply (Permutation_in _ (Permutation_sym Hp) Hx).
Qed.

Section SortFacts.
Context {A : Type}.
Implicit Types (x y : Py.number * A) (l : list (Py.number * A)).

Lemma lt_true (a b : Py.number) : Py.lt a b = true <-> (Py.val a < Py.val b)%Q.
Proof.
  unfold Py.lt. rewrite negb_true_iff. split; intros H.
  - apply Qnot_le_lt. intros Hle. apply Qle_bool_iff in Hle. congruence.
  - destruct (Qle_bool _ _) eqn:E; [|reflexivity].
    apply Qle_bool_iff in E. lra.
Qed.

Lemma lt_false (a b : Py.number) : Py.lt a b = false <-> (Py.val b <= Py.val a)%Q.
Proof.
  unfold Py.lt. rewrite negb_false_iff. apply Qle_bool_iff.
Qed.

Lemma insert_perm x l : Permutation (Sort.insert x l) (x :: l).
Proof.
  induction l as [|y l IH]; simpl; [reflexivity|].
  destruct (Py.lt (fst y) (fst x)); [|reflexivity].
  rewrite IH. apply perm_swap.
Qed.

Lemma sort_perm l : Permutation (Sort.sort l) l.
Proof.
  induction l as [|x l IH]; simpl; [reflexivity|].
  rewrite insert_perm. now apply perm_skip.
Qed.

Lemma insert_sorted x l :
  StronglySorted Sort.key_le l -> StronglySorted Sort.key_le (Sort.insert x l).
Proof.
  induction l as [|y l IH]; simpl; intros H.
  - repeat constructor.
  - apply StronglySorted_inv in H. destruct H as [Hl Hy].
    destruct (Py.lt (fst y) (fst x)) eqn:E.
    + constructor; [now apply IH|].
      apply (Forall_perm _ (x :: l)); [symmetry; apply insert_perm|].
      constructor; [|assumption].
      apply lt_true in E. unfold Sort.key_le. lra.
    + apply lt_false in E.
      constructor; [now constructor|].
      constructor; [exact E|].
      apply Forall_impl with (P := Sort.key_le y); [|assumption].
      unfold Sort.key_le. intros z Hz. lra.
Qed.

Lemma sort_sorted l : StronglySorted Sort.key_le (Sort.sort l).
Proof.
  induction l as [|x l IH]; simpl; [constructor | now apply insert_sorted].
Qed.

End SortFacts.

Lemma mapM_total {A B : Type} (f : A -> result B) (g : A -> B) (l : list A) :
  (forall x, In x l -> f x = Ok (g x)) -> mapM f l = Ok (map g l).
Proof.
  induction l as [|x l IH]; intros H; simpl; [reflexivity|].
  rewrite (H x (or_introl eq_refl)). cbn [bind].
  rewrite IH; [reflexivity|]. intros y Hy. apply H. now right.
Qed.

Lemma sorted_by_key {A : Type} (k : A -> Py.number) (R : A -> A -> Prop)
      (l : list (Py.number * A)) :
  (forall a b, (Py.val (k a) <= Py.val (k b))%Q -> R a b) ->
  Forall (fun e => fst e = k (snd e)) l ->
  StronglySorted Sort.key_le l ->
  StronglySorted R (map snd l).
Proof.
  intros HR Hk Hs. induction Hs as [|e l Hs IH He]; simpl; [constructor|].
  apply Forall_cons_iff in Hk. destruct Hk as [Hke Hkl].
  constructor; [now apply IH|].
  apply Forall_map. rewrite Forall_forall in *. intros e' Hin.
  apply HR. specialize (He e' Hin). specialize (Hkl e' Hin).
  unfold Sort.key_le in He. now rewrite <- Hke, <- Hkl.
Qed.

Lemma val_neg (g : Py.number) : (Py.val (Py.neg g) == - Py.val g)%Q.
Proof.
  destruct g as [b|z|q]; cbn [Py.neg Py.val]; try reflexivity;
    cbn [Py.int_val]; now rewrite inject_Z_opp.
Qed.

(** ** The listing of passed courses *)

Lemma passed_positive (g : Py.number) :
  Spec.passed g = true <-> (0 < Py.val g)%Q.
Proof. unfold Spec.passed, Py.gt. apply lt_true. Qed.

Lemma In_passed_items (d : OrderedDict.t Py.number) (c : string) :
  In c (Spec.passed_items d) <-> exists g, In (c, g) d /\ Spec.passed g = true.
Proof.
  unfold Spec.passed_items, OrderedDict.items. rewrite in_map_iff. split.
  - intros [[c' g] [Hc Hin]]. simpl in Hc. subst c'.
    apply filter_In in Hin. now exists g.
  - intros [g [Hin Hp]]. exists (c, g). split; [reflexivity|].
    now apply filter_In.
Qed.

(** A stored course whose grade is 0 is not listed. *)
Lemma failed_not_passed (d : OrderedDict.t Py.number) (c : string) (g : Py.number) :
  OrderedDict.wf d -> OrderedDict.getitem c d = Ok g -> (Py.val g == 0)%Q ->
  ~ In c (Spec.passed_items d).
Proof.
  intros Hwf Hg Hz Hin. apply In_passed_items in Hin.
  destruct Hin as [g' [Hin Hp]].
  rewrite (In_getitem _ _ _ Hwf Hin) in Hg. injection Hg as ->.
  apply passed_positive in Hp. lra.
Qed.

Lemma base_displayCourses_passed (s : Base.student) :
  Base.displayCourses s = Spec.passed_items (Base.courses s).
Proof. reflexivity. Qed.

(** The advanced listing: the same courses, by descending grade. *)
Lemma advanced_displayCourses_sorted (a : Advanced.student) :
  exists l, Advanced.displayCourses a = Ok l
    /\ Permutation l (Spec.passed_items (Advanced._courses a))
    /\ StronglySorted
         (fun x y => (Py.val (Spec.grade_of (Advanced._courses a) y)
                      <= Py.val (Spec.grade_of (Advanced._courses a) x))%Q) l.
Proof.
  set (d := Advanced._courses a).
  set (k := fun x => Py.neg (Spec.grade_of d x)).
  set (ks := map (fun x => (k x, x)) (Spec.passed_items d)).
  exists (map snd (Sort.sort ks)).
  assert (Hsnd : map snd ks = Spec.passed_items d).
  { unfold ks. rewrite map_map. simpl. apply map_id. }
  split; [|split].
  - unfold Advanced.displayCourses, Sort.sorted. fold d. fold (Spec.passed_items d).
    rewrite (mapM_total _ (fun x => (k x, x))); [reflexivity|].
    intros x Hx. apply In_passed_items in Hx. destruct Hx as [g [Hin _]].
    assert (Hc : OrderedDict.contains x d = true).
    { apply contains_keys. change x with (fst (x, g)). now apply in_map. }
    apply getitem_contains in Hc. destruct Hc as [v Hv].
    unfold k, Spec.grade_of. now rewrite Hv.
  - rewrite <- Hsnd. apply Permutation_map, sort_perm.
  - apply (sorted_by_key k).
    + intros x y. unfold k. rewrite !val_neg. lra.
    + apply (Forall_perm _ ks); [symmetry; apply sort_perm|].
      unfold ks. apply Forall_map, Forall_forall. reflexivity.
    + apply sort_sorted.
Qed.

(** C4.  A course stored with grade 0.0 is not in the list that
    [displayCourses] returns, in lab6a.py and in the advanced variant. *)
Theorem displayCourses_excludes_failed
        (s : Base.student) (a : Advanced.student) (c : string) (g : Py.number) :
  (OrderedDict.wf (Base.courses s) ->
   OrderedDict.getitem c (Base.courses s) = Ok g -> (Py.val g == 0)%Q ->
   ~ In c (Base.displayCourses s))
  /\ (OrderedDict.wf (Advanced._courses a) ->
      OrderedDict.getitem c (Advanced._courses a) = Ok g -> (Py.val g == 0)%Q ->
      exists l, Advanced.displayCourses a = Ok l /\ ~ In c l).
Proof.
  split.
  - intros Hwf Hg Hz. rewrite base_displayCourses_passed.
    now apply (failed_not_passed _ c g).
  - intros Hwf Hg Hz.
    destruct (advanced_displayCourses_sorted a) as (l & Hl & Hp & _).
    exists l. split; [assumption|]. intros Hin.
    apply (failed_not_passed _ c g Hwf Hg Hz).
    now apply (Permutation_in _ Hp).
Qed.

Lemma displayCourses_excludes_failed_witness :
  ~ In "cpp344" (Base.displayCourses jessica_base)
  /\ exists l, Advanced.displayCourses jessica_failed = Ok l /\ ~ In "cpp344" l.
Proof.
  split.
  - apply (proj1 (displayCourses_excludes_failed
                    jessica_base jessica_failed "cpp344" (Py.NFloat 0))).
    + repeat constructor; simpl; intuition discriminate.
    + reflexivity.
    + reflexivity.
  - apply (proj2 (displayCourses_excludes_failed
                    jessica_base jessica_failed "cpp344" (Py.NFloat 0))).
    + repeat constructor; simpl; intuition discriminate.
    + reflexivity.
    + reflexivity.
Defined.

(** ** The order of the listing *)

Section History.
Context {V : Type}.
Implicit Types (d : OrderedDict.t V) (l : list (string * V)) (c : string).

Lemma contains_existsb c d :
  OrderedDict.contains c d = existsb (String.eqb c) (OrderedDict.keys d).
Proof.
  unfold OrderedDict.contains, OrderedDict.keys.
  induction d as [|[k v] d IH]; simpl; [reflexivity|].
  now rewrite IH, String.eqb_sym.
Qed.

Lemma keys_assign_all l d :
  OrderedDict.keys (OrderedDict.assign_all l d) =
  fold_left (fun acc c => if existsb (String.eqb c) acc then acc
                          else (acc ++ [c])%list)
            (map fst l) (OrderedDict.keys d).
Proof.
  revert d. induction l as [|[k v] l IH]; intros d; simpl; [reflexivity|].
  unfold OrderedDict.assign_all in *. simpl. rewrite IH.
  now rewrite keys_setitem, contains_existsb.
Qed.

(** On a new record the enumeration is the order of first insertion. *)
Lemma keys_insertion_order l :
  OrderedDict.keys (OrderedDict.assign_all l OrderedDict.empty) =
  Spec.insertion_order (map fst l).
Proof. apply keys_assign_all. Qed.

Lemma last_grade_snoc l (e : string * V) c :
  Spec.last_grade (l ++ [e]) c =
  if String.eqb (fst e) c then Some (snd e) else Spec.last_grade l c.
Proof.
  unfold Spec.last_grade. rewrite rev_app_distr. simpl.
  now destruct (String.eqb (fst e) c).
Qed.

(** The stored grade is the one given last. *)
Lemma getitem_assign_all l d c :
  OrderedDict.getitem c (OrderedDict.assign_all l d) =
  match Spec.last_grade l c with
  | Some g => Ok g
  | None => OrderedDict.getitem c d
  end.
Proof.
  induction l as [|e l IH] using rev_ind; [reflexivity|].
  rewrite assign_all_app, last_grade_snoc. simpl.
  destruct (String.eqb (fst e) c) eqn:E.
  - apply String.eqb_eq in E. subst c. apply getitem_setitem_same.
  - apply String.eqb_neq in E. now rewrite getitem_setitem_other.
Qed.

(** Filtering the items by their value is filtering the keys by the value
    they look up. *)
Lemma filter_items_by_lookup (p : V -> bool) d :
  OrderedDict.wf d ->
  map fst (filter (fun e => p (snd e)) d) =
  filter (fun k => match OrderedDict.getitem k d with
                   | Ok g => p g
                   | Raise _ => false
                   end)
         (OrderedDict.keys d).
Proof.
  unfold OrderedDict.wf.
  induction d as [|[k v] d IH]; intros Hnd; simpl; [reflexivity|].
  simpl in Hnd. apply NoDup_cons_iff in Hnd. destruct Hnd as [Hk Hnd].
  rewrite String.eqb_refl.
  assert (Ht : filter (fun k0 => match (if String.eqb k k0 then Ok v
                                        else OrderedDict.getitem k0 d) with
                                 | Ok g => p g
                                 | Raise _ => false
                                 end) (OrderedDict.keys d)
               = map fst (filter (fun e => p (snd e)) d)).
  { rewrite (IH Hnd). apply filter_ext_in. intros k0 Hk0.
    destruct (String.eqb k k0) eqn:E; [|reflexivity].
    apply String.eqb_eq in E. subst k0. contradiction. }
  rewrite Ht. now destruct (p v).
Qed.

End History.

Lemma base_displayCourses_history (name : string) (number : Z + string)
      (calls : list (string * Py.number)) :
  Base.displayCourses (base_run calls (Base.Student name number)) =
  filter (fun c => match Spec.last_grade calls c with
                   | Some g => Spec.passed g
                   | None => false
                   end)
         (Spec.insertion_order (map fst calls)).
Proof.
  rewrite base_displayCourses_passed, base_run_courses.
  unfold Spec.passed_items, OrderedDict.items. simpl Base.courses.
  rewrite (filter_items_by_lookup Spec.passed);
    [|apply wf_assign_all, wf_empty].
  rewrite keys_insertion_order. apply filter_ext. intros c.
  rewrite getitem_assign_all. now destruct (Spec.last_grade calls c).
Qed.

(** C5.  [displayCourses] of lab6a.py returns the passed courses (last
    grade above 0.0) in the order in which the courses were first added;
    [displayCourses] of the advanced variant returns the passed courses
    sorted by descending grade. *)
Theorem displayCourses_order :
  (forall (name : string) (number : Z + string)
          (calls : list (string * Py.number)),
      Base.displayCourses (base_run calls (Base.Student name number)) =
      filter (fun c => match Spec.last_grade calls c with
                       | Some g => Spec.passed g
                       | None => false
                       end)
             (Spec.insertion_order (map fst calls)))
  /\ (forall a : Advanced.student,
      exists l, Advanced.displayCourses a = Ok l
        /\ Permutation l (Spec.passed_items (Advanced._courses a))
        /\ StronglySorted
             (fun x y => (Py.val (Spec.grade_of (Advanced._courses a) y)
                          <= Py.val (Spec.grade_of (Advanced._courses a) x))%Q) l).
Proof.
  split; [apply base_displayCourses_history | apply advanced_displayCourses_sorted].
Qed.

Example base_displayCourses_jessica :
  Base.displayCourses jessica_base = ["ipc144"; "cpp244"].
Proof. reflexivity. Qed.

Example advanced_displayCourses_by_grade :
  Advanced.displayCourses
    {| Advanced._name := "John"; Advanced._number := "013454900";
       Advanced._courses := [("uli101", Py.NFloat 1); ("ops445", Py.NFloat 3);
                             ("ops245", Py.NFloat 2); ("ops345", Py.NInt 3)] |}
  = Ok ["ops445"; "ops345"; "ops245"; "uli101"].
Proof. reflexivity. Qed.

(** ** Membership *)

Lemma advanced_run_snoc (calls : list (Py.value * Py.value))
      (e : Py.value * Py.value) (s : Advanced.student) :
  advanced_run (calls ++ [e]) s =
  snd (Advanced.addGrade (advanced_run calls s) (fst e) (snd e)).
Proof. unfold advanced_run. now rewrite fold_left_app. Qed.

Lemma contains_after_addGrade (s : Advanced.student) (course grade v : Py.value) :
  Advanced.Student___contains__ (snd (Advanced.addGrade s course grade)) v = true
  <-> Advanced.Student___contains__ s v = true
      \/ (v = course /\ fst (Advanced.addGrade s course grade) = Ok tt).
Proof.
  destruct (addGrade_outcomes s course grade) as [Hok|[e He]].
  - destruct (addGrade_ok _ _ _ Hok) as (c & g & -> & -> & _ & Hc).
    destruct v as [|n|k]; cbn [Advanced.Student___contains__].
    + split; [discriminate | intros [H|[H _]]; discriminate].
    + split; [discriminate | intros [H|[H _]]; discriminate].
    + rewrite Hc, contains_setitem, orb_true_iff, String.eqb_eq. split.
      * intros [->|H]; [right; now split | now left].
      * intros [H|[[= ->] _]]; [now right | now left].
  - rewrite (addGrade_raise_unchanged _ _ _ _ He). rewrite He. split.
    + now left.
    + intros [H|[_ H]]; [assumption | discriminate].
Qed.

Lemma contains_history (new : Advanced.student) (calls : list (Py.value * Py.value))
      (v : Py.value) :
  Advanced._courses new = OrderedDict.empty ->
  Advanced.Student___contains__ (advanced_run calls new) v = true
  <-> exists pre g post,
        calls = (pre ++ (v, g) :: post)%list
        /\ fst (Advanced.addGrade (advanced_run pre new) v g) = Ok tt.
Proof.
  intros Hnew. induction calls as [|[course grade] calls IH] using rev_ind.
  - simpl. split.
    + destruct v; cbn; rewrite ?Hnew; discriminate.
    + intros (pre & g & post & H & _). destruct pre; discriminate.
  - rewrite advanced_run_snoc. cbn [fst snd].
    rewrite contains_after_addGrade, IH. split.
    + intros [(pre & g & post & -> & Hok)|[-> Hok]].
      * exists pre, g, (post ++ [(course, grade)])%list.
        split; [|assumption]. now rewrite <- app_assoc.
      * exists calls, grade, []. now split.
    + intros (pre & g & post & Heq & Hok).
      destruct post as [|p post] using rev_ind.
      * apply app_inj_tail in Heq. destruct Heq as [<- [= <- <-]].
        right. now split.
      * clear IHpost. left.
        rewrite app_comm_cons, app_assoc in Heq.
        apply app_inj_tail in Heq. destruct Heq as [-> _].
        now exists pre, g, post.
Qed.

(** C9.  In the advanced variant [course in student] is true exactly when
    an earlier [addGrade] call with that course was accepted, whatever
    the grade; a course stored with grade 0.0 is a member although
    [displayCourses] leaves it out. *)
Theorem contains_iff_added (name number : string)
        (calls : list (Py.value * Py.value)) (v : Py.value) :
  let s := advanced_run calls (advanced_new name number) in
  (Advanced.Student___contains__ s v = true
   <-> exists pre g post,
         calls = (pre ++ (v, g) :: post)%list
         /\ fst (Advanced.addGrade
                   (advanced_run pre (advanced_new name number)) v g) = Ok tt)
  /\ (forall (c : string) (g : Py.number),
         OrderedDict.getitem c (Advanced._courses s) = Ok g ->
         (Py.val g == 0)%Q ->
         Advanced.Student___contains__ s (Py.VStr c) = true
         /\ exists l, Advanced.displayCourses s = Ok l /\ ~ In c l).
Proof.
  intros s. split.
  - now apply contains_history.
  - intros c g Hg Hz. split.
    + cbn [Advanced.Student___contains__].
      apply getitem_contains. now exists g.
    + destruct (advanced_displayCourses_sorted s) as (l & Hl & Hp & _).
      exists l. split; [assumption|]. intros Hin.
      assert (Hwf : OrderedDict.wf (Advanced._courses s))
        by (apply advanced_run_wf, wf_empty).
      apply (failed_not_passed _ c g Hwf Hg Hz).
      now apply (Permutation_in _ Hp).
Qed.

Lemma contains_iff_added_witness :
  let s := advanced_run [(Py.VStr "ipc144", Py.VNum (Py.NFloat 4));
                         (Py.VStr "cpp344", Py.VNum (Py.NFloat 0))]
                        (advanced_new "Jessica" "123456") in
  Advanced.Student___contains__ s (Py.VStr "cpp344") = true
  /\ exists l, Advanced.displayCourses s = Ok l /\ ~ In "cpp344" l.
Proof.
  apply (proj2 (contains_iff_added "Jessica" "123456"
                  [(Py.VStr "ipc144", Py.VNum (Py.NFloat 4));
                   (Py.VStr "cpp344", Py.VNum (Py.NFloat 0))]
                  (Py.VStr "cpp344")) "cpp344" (Py.NFloat 0)); reflexivity.
Defined.

(** * Further properties of the two files *)

(** ** What [addGrade] accepts and what it keeps *)

Lemma in_range_check (g : Py.number) :
  Py.le (Py.NFloat 0) g && Py.le g (Py.NFloat 4) = true <-> Spec.in_range g.
Proof.
  unfold Spec.in_range, Py.le. cbn [Py.val].
  now rewrite andb_true_iff, !Qle_bool_iff.
Qed.

Lemma addGrade_ok_range (s : Advanced.student) (course grade : Py.value) :
  fst (Advanced.addGrade s course grade) = Ok tt ->
  exists c g, course = Py.VStr c /\ grade = Py.VNum g
    /\ (3 <= String.length c)%nat /\ Spec.in_range g.
Proof.
  unfold Advanced.addGrade.
  destruct course as [|n|c]; try discriminate.
  destruct (String.length c <? 3)%nat eqn:El; try discriminate.
  destruct grade as [|g|t]; try discriminate.
  destruct (Py.le (Py.NFloat 0) g && Py.le g (Py.NFloat 4)) eqn:Er;
    [|discriminate].
  intros _. exists c, g. apply Nat.ltb_ge in El. apply in_range_check in Er.
  split; [reflexivity|]. split; [reflexivity|]. now split.
Qed.

(** X1.  The advanced [addGrade] returns normally exactly when the course
    is a text of at least 3 characters and the grade is a number ([bool],
    [int] or [float]) within [0.0, 4.0]; it then assigns the grade to the
    course and changes nothing else. *)
Theorem addGrade_accepted_iff (s : Advanced.student) (course grade : Py.value) :
  (fst (Advanced.addGrade s course grade) = Ok tt
   <-> exists c g, course = Py.VStr c /\ grade = Py.VNum g
         /\ (3 <= String.length c)%nat /\ Spec.in_range g)
  /\ (forall c g, course = Py.VStr c -> grade = Py.VNum g ->
        fst (Advanced.addGrade s course grade) = Ok tt ->
        snd (Advanced.addGrade s course grade) =
        {| Advanced._name := Advanced._name s;
           Advanced._number := Advanced._number s;
           Advanced._courses := OrderedDict.setitem c g (Advanced._courses s) |}).
Proof.
  split; [split|].
  - apply addGrade_ok_range.
  - intros (c & g & -> & -> & Hlen & Hg).
    now rewrite (addGrade_accepts s c g Hlen Hg).
  - intros c g -> -> Hok. unfold Advanced.addGrade in *.
    destruct (String.length c <? 3)%nat; [discriminate|].
    destruct (negb _); [discriminate | reflexivity].
Qed.

Lemma addGrade_accepted_iff_witness :
  fst (Advanced.addGrade jessica (Py.VStr "abc101") (Py.VNum (Py.NBool true))) = Ok tt
  /\ snd (Advanced.addGrade jessica (Py.VStr "abc101") (Py.VNum (Py.NBool true))) =
     {| Advanced._name := "Jessica";
        Advanced._number := "123456";
        Advanced._courses := [("ipc144", Py.NFloat 4); ("cpp244", Py.NFloat (35 # 10));
                              ("abc101", Py.NBool true)] |}.
Proof.
  assert (H : fst (Advanced.addGrade jessica (Py.VStr "abc101")
                                     (Py.VNum (Py.NBool true))) = Ok tt).
  { apply (proj1 (addGrade_accepted_iff jessica (Py.VStr "abc101")
                                        (Py.VNum (Py.NBool true)))).
    exists "abc101", (Py.NBool true).
    repeat split; try reflexivity; [simpl; lia | discriminate | discriminate]. }
  split; [exact H|].
  apply (proj2 (addGrade_accepted_iff jessica (Py.VStr "abc101")
                                      (Py.VNum (Py.NBool true)))
           "abc101" (Py.NBool true) eq_refl eq_refl H).
Defined.

Section SetitemMore.
Context {V : Type}.
Implicit Types (d : OrderedDict.t V) (k : string) (v : V).

Lemma In_setitem k v d (e : string * V) :
  In e (OrderedDict.setitem k v d) -> e = (k, v) \/ In e d.
Proof.
  induction d as [|[k0 v0] d IH]; simpl.
  - intros [<-|[]]. now left.
  - destruct (String.eqb k0 k) eqn:E; simpl.
    + apply String.eqb_eq in E. subst k0.
      intros [<-|H]; [now left | right; now right].
    + intros [<-|H]; [right; now left|].
      destruct (IH H) as [->|H']; [now left | right; now right].
Qed.

(** The last assignment to a key wins. *)
Lemma setitem_setitem k v1 v2 d :
  OrderedDict.setitem k v2 (OrderedDict.setitem k v1 d) = OrderedDict.setitem k v2 d.
Proof.
  induction d as [|[k0 v0] d IH]; simpl.
  - now rewrite String.eqb_refl.
  - destruct (String.eqb k0 k) eqn:E; simpl; rewrite E; [reflexivity|].
    now rewrite IH.
Qed.

Lemma len_setitem k v d :
  OrderedDict.len (OrderedDict.setitem k v d) =
  if OrderedDict.contains k d then OrderedDict.len d else S (OrderedDict.len d).
Proof.
  unfold OrderedDict.len.
  rewrite <- (length_map fst (OrderedDict.setitem k v d)), <- (length_map fst d).
  fold (OrderedDict.keys (OrderedDict.setitem k v d)). fold (OrderedDict.keys d).
  rewrite keys_setitem.
  destruct (OrderedDict.contains k d); [reflexivity|].
  rewrite length_app. simpl. lia.
Qed.

Lemma contains_assign_all_mono (l : list (string * V)) d k :
  OrderedDict.contains k d = true ->
  OrderedDict.contains k (OrderedDict.assign_all l d) = true.
Proof.
  revert d. induction l as [|e l IH]; intros d H; simpl; [assumption|].
  apply IH. rewrite contains_setitem, H. apply orb_true_r.
Qed.

Lemma len_assign_all_mono (l : list (string * V)) d :
  (OrderedDict.len d <= OrderedDict.len (OrderedDict.assign_all l d))%nat.
Proof.
  revert d. induction l as [|e l IH]; intros d; simpl; [lia|].
  etransitivity; [|apply IH]. rewrite len_setitem.
  destruct (OrderedDict.contains (fst e) d); lia.
Qed.

End SetitemMore.

(** The courses after a run on the advanced class are the accepted calls,
    assigned in order. *)
Lemma accepted_spec (s : Advanced.student) (e : Py.value * Py.value) :
  Advanced._courses (snd (Advanced.addGrade s (fst e) (snd e))) =
  OrderedDict.assign_all (accepted e) (Advanced._courses s).
Proof.
  unfold accepted.
  rewrite (addGrade_outcome (advanced_new "" "") s).
  destruct (addGrade_outcomes s (fst e) (snd e)) as [Hok|[x Hx]].
  - destruct (addGrade_ok _ _ _ Hok) as (c & g & Hc & Hg & _ & ->).
    rewrite Hok. destruct e as [course grade]. simpl in Hc, Hg. subst.
    reflexivity.
  - rewrite (addGrade_raise_unchanged _ _ _ _ Hx), Hx. reflexivity.
Qed.

Lemma advanced_run_courses (calls : list (Py.value * Py.value)) (s : Advanced.student) :
  Advanced._courses (advanced_run calls s) =
  OrderedDict.assign_all (accepted_calls calls) (Advanced._courses s).
Proof.
  revert s. induction calls as [|e calls IH]; intros s; simpl; [reflexivity|].
  rewrite IH, accepted_spec. unfold accepted_calls. simpl.
  now rewrite assign_all_app.
Qed.

Lemma accepted_in_range (e : Py.value * Py.value) (c : string) (g : Py.number) :
  In (c, g) (accepted e) -> (3 <= String.length c)%nat /\ Spec.in_range g.
Proof.
  unfold accepted.
  destruct (fst (Advanced.addGrade (advanced_new "" "") (fst e) (snd e)))
    as [[]|x] eqn:Hok; [|intros []].
  destruct (addGrade_ok_range _ _ _ Hok) as (c' & g' & Hc & Hg & Hlen & Hr).
  destruct e as [course grade]. simpl in Hc, Hg. subst.
  intros [[= <- <-]|[]]. now split.
Qed.

Lemma Forall_assign_all {V : Type} (P : string * V -> Prop)
      (l : list (string * V)) (d : OrderedDict.t V) :
  Forall P l -> Forall P d -> Forall P (OrderedDict.assign_all l d).
Proof.
  revert d. induction l as [|[k v] l IH]; intros d Hl Hd; simpl; [assumption|].
  apply Forall_cons_iff in Hl. destruct Hl as [Hkv Hl].
  apply IH; [assumption|].
  apply Forall_forall. intros e He.
  destruct (In_setitem _ _ _ _ He) as [->|Hin]; [assumption|].
  rewrite Forall_forall in Hd. now apply Hd.
Qed.

(** X2.  After any sequence of [addGrade] calls on a new record of the
    advanced class, accepted or not, every stored course code has at
    least 3 characters and every stored grade is within [0.0, 4.0]. *)
Theorem advanced_run_valid (name number : string)
        (calls : list (Py.value * Py.value)) :
  Forall (fun e => (3 <= String.length (fst e))%nat /\ Spec.in_range (snd e))
         (Advanced._courses (advanced_run calls (advanced_new name number))).
Proof.
  rewrite advanced_run_courses. apply Forall_assign_all; [|constructor].
  apply Forall_forall. intros [c g] He.
  unfold accepted_calls in He. apply in_flat_map in He.
  destruct He as [e [_ He]]. now apply (accepted_in_range e).
Qed.

(** X3.  Giving a course two grades in a row is the same as giving it the
    second grade only: in lab6a.py for all grades, in the advanced class
    for a course text of at least 3 characters and grades within
    [0.0, 4.0]. *)
Theorem addGrade_last_wins :
  (forall (s : Base.student) (c : string) (g1 g2 : Py.number),
      Base.addGrade (Base.addGrade s c g1) c g2 = Base.addGrade s c g2)
  /\ (forall (a : Advanced.student) (c : string) (g1 g2 : Py.number),
      (3 <= String.length c)%nat -> Spec.in_range g1 -> Spec.in_range g2 ->
      snd (Advanced.addGrade
             (snd (Advanced.addGrade a (Py.VStr c) (Py.VNum g1)))
             (Py.VStr c) (Py.VNum g2)) =
      snd (Advanced.addGrade a (Py.VStr c) (Py.VNum g2))).
Proof.
  split.
  - intros s c g1 g2. unfold Base.addGrade. cbn [Base.name Base.number Base.courses].
    now rewrite setitem_setitem.
  - intros a c g1 g2 Hlen H1 H2.
    rewrite (addGrade_accepts a c g1 Hlen H1). cbn [snd].
    rewrite !(addGrade_accepts _ c g2 Hlen H2). cbn [snd].
    cbn [Advanced._name Advanced._number Advanced._courses].
    now rewrite setitem_setitem.
Qed.

Lemma addGrade_last_wins_witness :
  snd (Advanced.addGrade
         (snd (Advanced.addGrade jessica (Py.VStr "cpp244") (Py.VNum (Py.NFloat 1))))
         (Py.VStr "cpp244") (Py.VNum (Py.NInt 3))) =
  snd (Advanced.addGrade jessica (Py.VStr "cpp244") (Py.VNum (Py.NInt 3))).
Proof.
  apply (proj2 addGrade_last_wins jessica "cpp244" (Py.NFloat 1) (Py.NInt 3)).
  - simpl. lia.
  - split; discriminate.
  - split; discriminate.
Defined.

Lemma advanced_contains_str (s : Advanced.student) (c : string) :
  Advanced.Student___contains__ s (Py.VStr c) =
  OrderedDict.contains c (Advanced._courses s).
Proof. reflexivity. Qed.

(** X4.  No [addGrade] call removes a course: through any sequence of
    calls a stored course stays stored and the number of stored courses
    does not go down, in both files. *)
Theorem addGrade_never_removes :
  (forall (calls : list (string * Py.number)) (s : Base.student) (c : string),
      (OrderedDict.contains c (Base.courses s) = true ->
       OrderedDict.contains c (Base.courses (base_run calls s)) = true)
      /\ (OrderedDict.len (Base.courses s)
          <= OrderedDict.len (Base.courses (base_run calls s)))%nat)
  /\ (forall (calls : list (Py.value * Py.value)) (a : Advanced.student)
             (v : Py.value),
      (Advanced.Student___contains__ a v = true ->
       Advanced.Student___contains__ (advanced_run calls a) v = true)
      /\ (OrderedDict.len (Advanced._courses a)
          <= OrderedDict.len (Advanced._courses (advanced_run calls a)))%nat).
Proof.
  split.
  - intros calls s c. rewrite base_run_courses. split.
    + apply contains_assign_all_mono.
    + apply len_assign_all_mono.
  - intros calls a v. rewrite advanced_run_courses. split.
    + destruct v as [|n|c]; cbn [Advanced.Student___contains__]; try discriminate.
      rewrite advanced_run_courses. apply contains_assign_all_mono.
    + apply len_assign_all_mono.
Qed.

Lemma addGrade_never_removes_witness :
  OrderedDict.contains "ipc144"
    (Base.courses (base_run [("ipc144", Py.NFloat 0); ("ops445", Py.NFloat 3)]
                            jessica_base)) = true
  /\ Advanced.Student___contains__
       (advanced_run [(Py.VStr "cpp244", Py.VNum (Py.NFloat 0));
                      (Py.VStr "x", Py.VNone)] jessica)
       (Py.VStr "cpp244") = true.
Proof.
  split.
  - apply (proj1 addGrade_never_removes
             [("ipc144", Py.NFloat 0); ("ops445", Py.NFloat 3)]
             jessica_base "ipc144").
    reflexivity.
  - apply (proj2 addGrade_never_removes
             [(Py.VStr "cpp244", Py.VNum (Py.NFloat 0)); (Py.VStr "x", Py.VNone)]
             jessica (Py.VStr "cpp244")).
    reflexivity.
Defined.

(** X5.  The advanced class stores what lab6a.py stores when given only
    the accepted calls: after the same sequence of calls on new records,
    the courses of the advanced record are the courses of the lab6a.py
    record that received the accepted calls, in the same order. *)
Theorem advanced_run_as_base (name number bname : string) (bnumber : Z + string)
        (calls : list (Py.value * Py.value)) :
  Advanced._courses (advanced_run calls (advanced_new name number)) =
  Base.courses (base_run (accepted_calls calls) (Base.Student bname bnumber)).
Proof.
  rewrite advanced_run_courses.
  rewrite base_run_courses.
  reflexivity.
Qed.

(** X6.  Iterating over a record of the advanced class yields each stored
    course once, failed ones included, in the order in which the accepted
    calls first named them; [course in student] holds exactly for the
    courses the iteration yields, and every course that [displayCourses]
    lists is among them. *)
Theorem iter_insertion_order (name number : string)
        (calls : list (Py.value * Py.value)) :
  let s := advanced_run calls (advanced_new name number) in
  Advanced.Student___iter__ s = Spec.insertion_order (map fst (accepted_calls calls))
  /\ NoDup (Advanced.Student___iter__ s)
  /\ (forall c, Advanced.Student___contains__ s (Py.VStr c) = true
                <-> In c (Advanced.Student___iter__ s))
  /\ exists l, Advanced.displayCourses s = Ok l
               /\ incl l (Advanced.Student___iter__ s).
Proof.
  intros s. unfold Advanced.Student___iter__. repeat apply conj.
  - unfold s. rewrite advanced_run_courses. apply keys_insertion_order.
  - apply (advanced_run_wf calls), wf_empty.
  - intros c. apply contains_keys.
  - destruct (advanced_displayCourses_sorted s) as (l & Hl & Hp & _).
    exists l. split; [assumption|]. intros c Hc.
    apply (Permutation_in _ Hp) in Hc. apply In_passed_items in Hc.
    destruct Hc as [g [Hin _]]. change c with (fst (c, g)). now apply in_map.
Qed.

Lemma iter_insertion_order_witness :
  let s := advanced_run [(Py.VStr "ipc144", Py.VNum (Py.NFloat 4));
                         (Py.VStr "cpp344", Py.VNum (Py.NFloat 0));
                         (Py.VStr "ipc144", Py.VNum (Py.NFloat 2))]
                        (advanced_new "Jessica" "123456") in
  Advanced.Student___iter__ s = ["ipc144"; "cpp344"]
  /\ In "cpp344" (Advanced.Student___iter__ s).
Proof.
  pose proof (iter_insertion_order "Jessica" "123456"
                [(Py.VStr "ipc144", Py.VNum (Py.NFloat 4));
                 (Py.VStr "cpp344", Py.VNum (Py.NFloat 0));
                 (Py.VStr "ipc144", Py.VNum (Py.NFloat 2))]) as H.
  cbv zeta in H. destruct H as (H1 & _ & H3 & _).
  split.
  - exact H1.
  - apply (proj1 (H3 "cpp344")). reflexivity.
Defined.

(** ** The identity of a record *)

Lemma base_run_identity (calls : list (string * Py.number)) (s : Base.student) :
  Base.name (base_run calls s) = Base.name s
  /\ Base.number (base_run calls s) = Base.number s.
Proof.
  revert s. induction calls as [|e calls IH]; intros s; simpl; [now split|].
  destruct (IH (Base.addGrade s (fst e) (snd e))) as [-> ->]. now split.
Qed.

Lemma addGrade_identity (a : Advanced.student) (course grade : Py.value) :
  Advanced._name (snd (Advanced.addGrade a course grade)) = Advanced._name a
  /\ Advanced._number (snd (Advanced.addGrade a course grade)) = Advanced._number a.
Proof.
  unfold Advanced.addGrade.
  destruct course as [|n|c]; try now split.
  destruct (String.length c <? 3)%nat; try now split.
  destruct grade as [|g|t]; try now split.
  destruct (negb _); now split.
Qed.

Lemma advanced_run_identity (calls : list (Py.value * Py.value)) (a : Advanced.student) :
  Advanced._name (advanced_run calls a) = Advanced._name a
  /\ Advanced._number (advanced_run calls a) = Advanced._number a.
Proof.
  revert a. induction calls as [|e calls IH]; intros a; simpl; [now split|].
  destruct (IH (snd (Advanced.addGrade a (fst e) (snd e)))) as [-> ->].
  apply addGrade_identity.
Qed.

(** X7.  [addGrade] never touches the name or the number: through any
    sequence of calls [displayStudent] (lab6a.py) and [repr] (advanced)
    give the same text, and whether two advanced records are equal does
    not depend on the grades added to either. *)
Theorem addGrade_keeps_identity :
  (forall (calls : list (string * Py.number)) (s : Base.student),
      Base.name (base_run calls s) = Base.name s
      /\ Base.number (base_run calls s) = Base.number s
      /\ Base.displayStudent (base_run calls s) = Base.displayStudent s)
  /\ (forall (calls : list (Py.value * Py.value)) (a : Advanced.student),
      Advanced._name (advanced_run calls a) = Advanced._name a
      /\ Advanced._number (advanced_run calls a) = Advanced._number a
      /\ Advanced.Student___repr__ (advanced_run calls a) = Advanced.Student___repr__ a)
  /\ (forall (calls1 calls2 : list (Py.value * Py.value)) (a b : Advanced.student),
      Advanced.Student___eq__ (advanced_run calls1 a) (advanced_run calls2 b) =
      Advanced.Student___eq__ a b).
Proof.
  repeat apply conj.
  - intros calls s. unfold Base.displayStudent.
    destruct (base_run_identity calls s) as [-> ->]. now repeat split.
  - intros calls a. unfold Advanced.Student___repr__.
    destruct (advanced_run_identity calls a) as [-> ->]. now repeat split.
  - intros calls1 calls2 a b. unfold Advanced.Student___eq__.
    destruct (advanced_run_identity calls1 a) as [-> ->].
    destruct (advanced_run_identity calls2 b) as [-> ->]. reflexivity.
Qed.

(** X8.  Equality of advanced records is reflexive, symmetric and
    transitive, and it looks at nothing but the name and the number: two
    records with the same name and number are equal whatever courses they
    store, and two scholarship students with the same name and number are
    equal whatever their amounts. *)
Theorem Student_eq_equivalence :
  (forall a, Advanced.Student___eq__ a a = true)
  /\ (forall a b, Advanced.Student___eq__ a b = Advanced.Student___eq__ b a)
  /\ (forall a b c, Advanced.Student___eq__ a b = true ->
                    Advanced.Student___eq__ b c = true ->
                    Advanced.Student___eq__ a c = true)
  /\ (forall a d, Advanced.Student___eq__ a
                    {| Advanced._name := Advanced._name a;
                       Advanced._number := Advanced._number a;
                       Advanced._courses := d |} = true)
  /\ (forall x y : Advanced.scholarship_student,
        Advanced._name (Advanced.base x) = Advanced._name (Advanced.base y) ->
        Advanced._number (Advanced.base x) = Advanced._number (Advanced.base y) ->
        Advanced.Student___eq__ (Advanced.base x) (Advanced.base y) = true).
Proof.
  repeat apply conj.
  - intros a. now apply Student_eq_spec.
  - intros a b. unfold Advanced.Student___eq__.
    now rewrite (String.eqb_sym (Advanced._name a)),
      (String.eqb_sym (Advanced._number a)).
  - intros a b c Hab Hbc. apply Student_eq_spec in Hab, Hbc.
    apply Student_eq_spec. destruct Hab as [-> ->]. exact Hbc.
  - intros a d. now apply Student_eq_spec.
  - intros x y Hn Hi. now apply Student_eq_spec.
Qed.

Lemma Student_eq_equivalence_witness :
  Advanced.Student___eq__ jessica jessica_failed = true
  /\ Advanced.Student___eq__
       (Advanced.base jessica_scholar)
       (Advanced.base {| Advanced.base := jessica_failed;
                         Advanced.scholarship_amount := Py.VNum (Py.NInt 0) |})
     = true.
Proof.
  split.
  - apply (proj1 (proj2 (proj2 Student_eq_equivalence))
             jessica (advanced_new "Jessica" "123456") jessica_failed);
      reflexivity.
  - apply (proj2 (proj2 (proj2 (proj2 Student_eq_equivalence)))
             jessica_scholar
             {| Advanced.base := jessica_failed;
                Advanced.scholarship_amount := Py.VNum (Py.NInt 0) |});
      reflexivity.
Defined.

(** ** More on the listing of passed courses *)

Lemma In_passed_items_lookup (d : OrderedDict.t Py.number) (c : string) :
  OrderedDict.wf d ->
  In c (Spec.passed_items d)
  <-> exists g, OrderedDict.getitem c d = Ok g /\ (0 < Py.val g)%Q.
Proof.
  intros Hwf. rewrite In_passed_items. split.
  - intros [g [Hin Hp]]. exists g. split; [now apply In_getitem|].
    now apply passed_positive.
  - intros [g [Hg Hp]]. exists g. split; [now apply getitem_In|].
    now apply passed_positive.
Qed.

Lemma NoDup_passed_items (d : OrderedDict.t Py.number) :
  OrderedDict.wf d -> NoDup (Spec.passed_items d).
Proof.
  intros Hwf. unfold Spec.passed_items, OrderedDict.items.
  rewrite (filter_items_by_lookup Spec.passed d Hwf).
  now apply NoDup_filter.
Qed.

(** X9.  [displayCourses] lists exactly the stored courses whose grade is
    above 0.0, each once: in lab6a.py (where a negative grade can be
    stored, and is left out like a zero) and in the advanced class. *)
Theorem displayCourses_lists_passed (s : Base.student) (a : Advanced.student) :
  (OrderedDict.wf (Base.courses s) ->
   NoDup (Base.displayCourses s)
   /\ forall c, In c (Base.displayCourses s)
                <-> exists g, OrderedDict.getitem c (Base.courses s) = Ok g
                              /\ (0 < Py.val g)%Q)
  /\ (OrderedDict.wf (Advanced._courses a) ->
      exists l, Advanced.displayCourses a = Ok l
        /\ NoDup l
        /\ forall c, In c l
                     <-> exists g, OrderedDict.getitem c (Advanced._courses a) = Ok g
                                   /\ (0 < Py.val g)%Q).
Proof.
  split.
  - intros Hwf. rewrite base_displayCourses_passed. split.
    + now apply NoDup_passed_items.
    + intros c. now apply In_passed_items_lookup.
  - intros Hwf.
    destruct (advanced_displayCourses_sorted a) as (l & Hl & Hp & _).
    exists l. split; [assumption|]. split.
    + apply (Permutation_NoDup (Permutation_sym Hp)).
      now apply NoDup_passed_items.
    + intros c. rewrite <- (In_passed_items_lookup _ c Hwf). split.
      * apply (Permutation_in _ Hp).
      * apply (Permutation_in _ (Permutation_sym Hp)).
Qed.

Lemma displayCourses_lists_passed_witness :
  (In "ops345" (Base.displayCourses john_base)
   /\ ~ In "ops245" (Base.displayCourses john_base))
  /\ exists l, Advanced.displayCourses john = Ok l /\ NoDup l /\ In "ops345" l.
Proof.
  assert (Hb : OrderedDict.wf (Base.courses john_base))
    by (repeat constructor; simpl; intuition discriminate).
  assert (Ha : OrderedDict.wf (Advanced._courses john))
    by (repeat constructor; simpl; intuition discriminate).
  split.
  - destruct (proj1 (displayCourses_lists_passed john_base john) Hb) as [_ H].
    split.
    + apply (proj2 (H "ops345")). exists (Py.NInt 2). split; reflexivity.
    + intros Hin. apply (proj1 (H "ops245")) in Hin.
      destruct Hin as [g [Hg Hp]]. injection Hg as <-. discriminate Hp.
  - destruct (proj2 (displayCourses_lists_passed john_base john) Ha)
      as (l & Hl & Hn & H).
    exists l. split; [assumption|]. split; [assumption|].
    apply (proj2 (H "ops345")). exists (Py.NInt 3). split; reflexivity.
Defined.

Section Stability.
Context {A : Type}.
Variable v : Q.
Implicit Types (x y : Py.number * A) (l : list (Py.number * A)).

Lemma insert_filter x l :
  filter (Sort.has_key v) (Sort.insert x l) =
  if Sort.has_key v x then x :: filter (Sort.has_key v) l else filter (Sort.has_key v) l.
Proof.
  induction l as [|y l IH]; simpl; [reflexivity|].
  destruct (Py.lt (fst y) (fst x)) eqn:E; simpl; [|reflexivity].
  rewrite IH. destruct (Sort.has_key v x) eqn:Ex; [|reflexivity].
  assert (Ey : Sort.has_key v y = false).
  { unfold Sort.has_key in *. apply lt_true in E. apply Qeq_bool_iff in Ex.
    destruct (Qeq_bool (Py.val (fst y)) v) eqn:Ey; [|reflexivity].
    apply Qeq_bool_iff in Ey. lra. }
  now rewrite Ey.
Qed.

(** The sort is stable: the elements of one key keep their order. *)
Lemma sort_filter l : filter (Sort.has_key v) (Sort.sort l) = filter (Sort.has_key v) l.
Proof.
  induction l as [|x l IH]; simpl; [reflexivity|].
  rewrite insert_filter, IH. reflexivity.
Qed.

End Stability.

(** The list that the advanced [displayCourses] returns. *)
Lemma advanced_displayCourses_eq (a : Advanced.student) :
  Advanced.displayCourses a =
  Ok (map snd
        (Sort.sort
           (map (fun x => (Py.neg (Spec.grade_of (Advanced._courses a) x), x))
                (Spec.passed_items (Advanced._courses a))))).
Proof.
  set (d := Advanced._courses a).
  unfold Advanced.displayCourses, Sort.sorted. fold d. fold (Spec.passed_items d).
  rewrite (mapM_total _ (fun x => (Py.neg (Spec.grade_of d x), x)));
    [reflexivity|].
  intros x Hx. apply In_passed_items in Hx. destruct Hx as [g [Hin _]].
  assert (Hc : OrderedDict.contains x d = true).
  { apply contains_keys. change x with (fst (x, g)). now apply in_map. }
  apply getitem_contains in Hc. destruct Hc as [w Hw].
  unfold Spec.grade_of. now rewrite Hw.
Qed.

Lemma filter_map_snd {A B : Type} (p : B -> bool) (l : list (A * B)) :
  filter p (map snd l) = map snd (filter (fun e => p (snd e)) l).
Proof.
  induction l as [|e l IH]; simpl; [reflexivity|].
  rewrite IH. now destruct (p (snd e)).
Qed.

Lemma Qeq_bool_opp (x y : Q) : Qeq_bool (- x) (- y) = Qeq_bool x y.
Proof.
  destruct (Qeq_bool x y) eqn:E.
  - apply Qeq_bool_iff in E. apply Qeq_bool_iff. now rewrite E.
  - destruct (Qeq_bool (- x) (- y)) eqn:E'; [|reflexivity].
    apply Qeq_bool_iff in E'. apply Qeq_bool_neq in E. exfalso. apply E. lra.
Qed.

Lemma Qeq_bool_comp (x x' y : Q) : (x == x')%Q -> Qeq_bool x y = Qeq_bool x' y.
Proof.
  intros H. destruct (Qeq_bool x' y) eqn:E.
  - apply Qeq_bool_iff in E. apply Qeq_bool_iff. now rewrite H.
  - destruct (Qeq_bool x y) eqn:E'; [|reflexivity].
    apply Qeq_bool_iff in E'. apply Qeq_bool_neq in E. exfalso. apply E.
    now rewrite <- H.
Qed.

(** X10.  The advanced [displayCourses] keeps courses of the same grade
    in the order of the enumeration: for every grade value, the listed
    courses with that grade come in the order in which they are stored. *)
Theorem displayCourses_stable (a : Advanced.student) (v : Q) :
  exists l, Advanced.displayCourses a = Ok l
    /\ filter (fun c => Qeq_bool (Py.val (Spec.grade_of (Advanced._courses a) c)) v) l
       = filter (fun c => Qeq_bool (Py.val (Spec.grade_of (Advanced._courses a) c)) v)
                (Spec.passed_items (Advanced._courses a)).
Proof.
  set (d := Advanced._courses a).
  set (p := fun c => Qeq_bool (Py.val (Spec.grade_of d c)) v).
  set (ks := map (fun x => (Py.neg (Spec.grade_of d x), x)) (Spec.passed_items d)).
  exists (map snd (Sort.sort ks)).
  split; [apply advanced_displayCourses_eq|].
  assert (Hk : forall e, In e ks -> (fun e => p (snd e)) e = Sort.has_key (- v) e).
  { intros e He. apply in_map_iff in He. destruct He as [x [<- _]].
    unfold Sort.has_key, p. cbn [fst snd].
    rewrite (Qeq_bool_comp _ _ _ (val_neg (Spec.grade_of d x))).
    now rewrite Qeq_bool_opp. }
  assert (Hs : forall e, In e (Sort.sort ks) ->
                 (fun e => p (snd e)) e = Sort.has_key (- v) e).
  { intros e He. apply Hk. apply (Permutation_in _ (sort_perm _) He). }
  rewrite filter_map_snd.
  rewrite (filter_ext_in (fun e => p (snd e)) (Sort.has_key (- v)) (Sort.sort ks) Hs).
  rewrite sort_filter.
  rewrite <- (filter_ext_in (fun e => p (snd e)) (Sort.has_key (- v)) ks Hk).
  rewrite <- filter_map_snd. f_equal.
  unfold ks. rewrite map_map. apply map_id.
Qed.

Example displayCourses_stable_john :
  Advanced.displayCourses john = Ok ["ops445"; "ops345"; "ops245"; "uli101"].
Proof. reflexivity. Qed.

Lemma sort_sorted_id {A : Type} (l : list (Py.number * A)) :
  StronglySorted Sort.key_le l -> Sort.sort l = l.
Proof.
  induction 1 as [|x l Hs IH Hx]; simpl; [reflexivity|].
  rewrite IH. destruct l as [|y l]; [reflexivity|]. simpl.
  apply Forall_inv in Hx. apply lt_false in Hx. now rewrite Hx.
Qed.

(** X11.  When the passed courses are stored by descending grade already,
    the advanced [displayCourses] returns them in the stored order, as
    lab6a.py does. *)
Theorem displayCourses_agree (a : Advanced.student) :
  StronglySorted
    (fun x y => (Py.val (Spec.grade_of (Advanced._courses a) y)
                 <= Py.val (Spec.grade_of (Advanced._courses a) x))%Q)
    (Spec.passed_items (Advanced._courses a)) ->
  Advanced.displayCourses a =
  Ok (Base.displayCourses {| Base.name := Advanced._name a;
                             Base.number := Advanced._number a;
                             Base.courses := Advanced._courses a |}).
Proof.
  intros H. rewrite advanced_displayCourses_eq, base_displayCourses_passed.
  cbn [Base.courses]. set (d := Advanced._courses a) in *.
  rewrite sort_sorted_id.
  - rewrite map_map. simpl. now rewrite map_id.
  - induction H as [|x l Hs IH Hx]; simpl; constructor; [assumption|].
    apply Forall_map. apply Forall_impl with (2 := Hx).
    intros y Hy. unfold Sort.key_le. cbn [fst]. rewrite !val_neg. lra.
Qed.

Lemma displayCourses_agree_witness :
  Advanced.displayCourses jessica_failed =
  Ok (Base.displayCourses {| Base.name := "Jessica";
                             Base.number := "123456";
                             Base.courses := Advanced._courses jessica_failed |}).
Proof.
  apply (displayCourses_agree jessica_failed).
  repeat constructor. discriminate.
Defined.

(** ** Constructing records *)

(** X14.  [Student.__init__] of the advanced file returns only when the
    name is a text and the number is a text, a [bool] or an [int] of at
    most 4300 digits: the record then has that name, the text of the
    number and no courses.  It raises [TypeError] when the name is not a
    text or the number is [None] or a [float], [ValueError] (from [str])
    when the name is a text and the number an [int] of more than 4300
    digits, and nothing else; a [float] number is always a [TypeError]. *)
Theorem Student_init_outcome (name number : Py.value) :
  (forall s, Advanced.Student___init__ name number = Ok s ->
     Advanced._courses s = []
     /\ name = Py.VStr (Advanced._name s)
     /\ (number = Py.VStr (Advanced._number s)
         \/ (exists z, number = Py.VNum (Py.NInt z)
                       /\ Advanced._number s = Text.str_int z
                       /\ (String.length (Text.str_int (Z.abs z)) <= 4300)%nat)
         \/ (exists b, number = Py.VNum (Py.NBool b)
                       /\ Advanced._number s = Text.str_bool b)))
  /\ (forall e, Advanced.Student___init__ name number = Raise e ->
     (e = TypeError
      /\ (Py.isinstance_str name = false
          \/ number = Py.VNone
          \/ exists q, number = Py.VNum (Py.NFloat q)))
     \/ (e = ValueError
         /\ Py.isinstance_str name = true
         /\ exists z, number = Py.VNum (Py.NInt z)
                      /\ (4300 < String.length (Text.str_int (Z.abs z)))%nat))
  /\ (forall q,
         Advanced.Student___init__ name (Py.VNum (Py.NFloat q)) = Raise TypeError).
Proof.
  unfold Advanced.Student___init__, Text.str_of_int. repeat apply conj.
  - intros s. destruct name as [|n|n]; try discriminate.
    destruct number as [|[b|z|q]|t]; try discriminate.
    + intros [= <-]. cbn. repeat split. right. right. now exists b.
    + destruct (4300 <? _)%nat eqn:E; [discriminate|].
      apply Nat.ltb_ge in E. intros [= <-]. cbn. repeat split.
      right. left. now exists z.
    + intros [= <-]. cbn. repeat split. now left.
  - intros e. destruct name as [|n|n]; try (intros [= <-]; left; now auto).
    destruct number as [|[b|z|q]|t]; try discriminate.
    + intros [= <-]. left. auto.
    + destruct (4300 <? _)%nat eqn:E; [|discriminate].
      apply Nat.ltb_lt in E. intros [= <-]. right.
      split; [reflexivity|]. split; [reflexivity|]. now exists z.
    + intros [= <-]. left. split; [reflexivity|]. right. right. now exists q.
  - intros q. now destruct name.
Qed.

Lemma Student_init_outcome_witness :
  Advanced._courses (advanced_new "Jessica" "123456") = []
  /\ Py.VStr "Jessica" = Py.VStr (Advanced._name (advanced_new "Jessica" "123456")).
Proof.
  destruct (proj1 (Student_init_outcome (Py.VStr "Jessica") (Py.VNum (Py.NInt 123456)))
              (advanced_new "Jessica" "123456") eq_refl) as (H1 & H2 & _).
  split; [exact H1 | exact H2].
Defined.

(** X15.  [ScholarshipStudent(name, number, amount)] returns a record
    exactly when [Student.__init__] accepts the name and the number and
    the amount is a number that is not below 0; the record then holds
    that amount.  The name and the number are checked first: their error
    wins over a bad amount.  An amount below 0 raises [ValueError], an
    amount that is not a number raises [TypeError]. *)
Theorem ScholarshipStudent_outcome (name number amount : Py.value) :
  (forall s, Advanced.ScholarshipStudent name number amount = Ok s ->
     Advanced.Student___init__ name number = Ok (Advanced.base s)
     /\ Advanced.scholarship_amount s = amount
     /\ exists a, amount = Py.VNum a /\ (0 <= Py.val a)%Q)
  /\ (forall b a, Advanced.Student___init__ name number = Ok b ->
        amount = Py.VNum a -> (0 <= Py.val a)%Q ->
        Advanced.ScholarshipStudent name number amount =
        Ok {| Advanced.base := b; Advanced.scholarship_amount := amount |})
  /\ (forall b a, Advanced.Student___init__ name number = Ok b ->
        amount = Py.VNum a -> (Py.val a < 0)%Q ->
        Advanced.ScholarshipStudent name number amount = Raise ValueError)
  /\ (forall b, Advanced.Student___init__ name number = Ok b ->
        Py.isinstance_int_float amount = false ->
        Advanced.ScholarshipStudent name number amount = Raise TypeError)
  /\ (forall e, Advanced.Student___init__ name number = Raise e ->
        Advanced.ScholarshipStudent name number amount = Raise e).
Proof.
  unfold Advanced.ScholarshipStudent, Advanced.StudentMeta___call__,
    Advanced.ScholarshipStudent___init__.
  assert (Hlt : forall a, Py.lt a (Py.NInt 0) = false <-> (0 <= Py.val a)%Q)
    by (intros a; apply lt_false).
  repeat apply conj.
  - intros s. destruct (Advanced.Student___init__ name number) as [b|e];
      [|discriminate]. cbn [bind].
    destruct amount as [|a|t]; try discriminate.
    destruct (Py.lt a (Py.NInt 0)) eqn:E; [discriminate|].
    cbn. intros [= <-]. cbn. repeat split. exists a. split; [reflexivity|].
    now apply Hlt.
  - intros b a -> -> Ha. cbn [bind]. apply Hlt in Ha. now rewrite Ha.
  - intros b a -> -> Ha. cbn [bind].
    assert (E : Py.lt a (Py.NInt 0) = true) by (apply lt_true; exact Ha).
    now rewrite E.
  - intros b -> Ha. cbn [bind]. destruct amount; try reflexivity. discriminate.
  - intros e ->. reflexivity.
Qed.

Lemma ScholarshipStudent_outcome_witness :
  Advanced.ScholarshipStudent (Py.VStr "Jessica") (Py.VNum (Py.NInt 123456))
                              (Py.VNum (Py.NInt 5000)) =
    Ok {| Advanced.base := advanced_new "Jessica" "123456";
          Advanced.scholarship_amount := Py.VNum (Py.NInt 5000) |}
  /\ Advanced.ScholarshipStudent (Py.VStr "Jessica") (Py.VNum (Py.NInt 123456))
                                 (Py.VNum (Py.NFloat (- (1 # 2)))) = Raise ValueError
  /\ Advanced.ScholarshipStudent (Py.VStr "Jessica") (Py.VNum (Py.NFloat 1))
                                 (Py.VNum (Py.NInt (-5))) = Raise TypeError.
Proof.
  split; [|split].
  - apply (proj1 (proj2 (ScholarshipStudent_outcome
                           (Py.VStr "Jessica") (Py.VNum (Py.NInt 123456))
                           (Py.VNum (Py.NInt 5000))))
             (advanced_new "Jessica" "123456") (Py.NInt 5000));
      [reflexivity | reflexivity | discriminate].
  - apply (proj1 (proj2 (proj2 (ScholarshipStudent_outcome
                           (Py.VStr "Jessica") (Py.VNum (Py.NInt 123456))
                           (Py.VNum (Py.NFloat (- (1 # 2)))))))
             (advanced_new "Jessica" "123456") (Py.NFloat (- (1 # 2))));
      reflexivity.
  - apply (proj2 (proj2 (proj2 (proj2 (ScholarshipStudent_outcome
                           (Py.VStr "Jessica") (Py.VNum (Py.NFloat 1))
                           (Py.VNum (Py.NInt (-5)))))))
             TypeError).
    reflexivity.
Defined.

(** ** The registry of instances *)

Lemma construct_spec (reg : Advanced.instances) (k : Advanced.class_call) :
  Advanced.construct reg k =
  if fst (Advanced.construct [] k)
  then (true, (reg ++ [Advanced.ScholarshipStudent_cls])%list)
  else (false, reg).
Proof.
  destruct k as [name number|name number amount]; simpl.
  - destruct (Advanced.Student___init__ name number); reflexivity.
  - destruct (Advanced.ScholarshipStudent___init__ name number amount); reflexivity.
Qed.

Lemma construct_all_count (calls : list Advanced.class_call) (reg : Advanced.instances) :
  Advanced.totalStudents (construct_all calls reg) =
  (Advanced.totalStudents reg
   + List.length (filter (fun k => fst (Advanced.construct [] k)) calls))%nat.
Proof.
  revert reg. induction calls as [|k calls IH]; intros reg; simpl; [lia|].
  rewrite IH, (construct_spec reg k).
  destruct (fst (Advanced.construct [] k)); cbn [snd List.length].
  - unfold Advanced.totalStudents, Advanced.count_instances.
    rewrite length_app. simpl. lia.
  - lia.
Qed.

(** X16.  [Student.totalStudents()] counts the calls of the classes that
    returned an instance: a call that raises registers nothing, and a
    call of [Student] itself always raises, so only instances of
    [ScholarshipStudent] are ever counted. *)
Theorem totalStudents_counts (calls : list Advanced.class_call)
        (reg : Advanced.instances) :
  Advanced.totalStudents (construct_all calls reg) =
    (Advanced.totalStudents reg
     + List.length (filter (fun k => fst (Advanced.construct [] k)) calls))%nat
  /\ (forall name number,
        Advanced.construct reg (Advanced.CallStudent name number) = (false, reg))
  /\ (forall name number amount,
        fst (Advanced.construct reg
               (Advanced.CallScholarshipStudent name number amount)) = true
        <-> exists s, Advanced.ScholarshipStudent name number amount = Ok s)
  /\ Forall (fun cls => cls = Advanced.ScholarshipStudent_cls)
            (construct_all calls []).
Proof.
  repeat apply conj.
  - apply construct_all_count.
  - intros name number. simpl.
    destruct (Advanced.Student___init__ name number); reflexivity.
  - intros name number amount. simpl.
    unfold Advanced.ScholarshipStudent, Advanced.StudentMeta___call__.
    destruct (Advanced.ScholarshipStudent___init__ name number amount) as [s|e];
      simpl; split; try discriminate; eauto.
    intros [s H]. discriminate H.
  - assert (H : forall r, Forall (fun cls => cls = Advanced.ScholarshipStudent_cls) r ->
                Forall (fun cls => cls = Advanced.ScholarshipStudent_cls)
                       (construct_all calls r)).
    { induction calls as [|k calls IH]; intros r Hr; simpl; [assumption|].
      apply IH. rewrite (construct_spec r k).
      destruct (fst (Advanced.construct [] k)); cbn [snd]; [|assumption].
      apply Forall_app. split; [assumption | now repeat constructor]. }
    apply H. constructor.
Qed.

Lemma totalStudents_counts_witness :
  fst (Advanced.construct []
         (Advanced.CallScholarshipStudent (Py.VStr "Jessica")
            (Py.VNum (Py.NInt 123456)) (Py.VNum (Py.NInt 5000)))) = true.
Proof.
  apply (proj1 (proj2 (proj2 (totalStudents_counts [] [])))
           (Py.VStr "Jessica") (Py.VNum (Py.NInt 123456)) (Py.VNum (Py.NInt 5000))).
  exists {| Advanced.base := advanced_new "Jessica" "123456";
            Advanced.scholarship_amount := Py.VNum (Py.NInt 5000) |}.
  reflexivity.
Defined.

Example totalStudents_script :
  Advanced.totalStudents
    (construct_all
       [Advanced.CallStudent (Py.VStr "John") (Py.VStr "013454900");
        Advanced.CallScholarshipStudent (Py.VStr "Jessica")
          (Py.VNum (Py.NInt 123456)) (Py.VNum (Py.NInt 5000));
        Advanced.CallScholarshipStudent (Py.VStr "Max")
          (Py.VNum (Py.NInt 7)) (Py.VNum (Py.NInt (-1)))] []) = 1%nat.
Proof. reflexivity. Qed.

(** ** The methods that read the GPA *)

Lemma gpa_call_raises (c : Advanced.displayGPA_cache) (k : Advanced.gpa_call) :
  Advanced.gpa_call_outcome c k = (Some TypeError, c).
Proof. destruct k; reflexivity. Qed.

(** X17.  No call of [displayGPA], [isEligible] or [<] on records of the
    advanced file ever returns: through any sequence of such calls, from
    any state of the cache, every call raises [TypeError] and the cache
    stays as it was, so nothing is ever cached. *)
Theorem gpa_calls_all_raise (c : Advanced.displayGPA_cache)
        (calls : list Advanced.gpa_call) :
  gpa_calls c calls = (map (fun _ => Some TypeError) calls, c).
Proof.
  induction calls as [|k calls IH]; simpl; [reflexivity|].
  now rewrite gpa_call_raises, IH.
Qed.

(** ** The text of an integer number *)

Lemma to_int_not_nil (z : Z) :
  Z.to_int z <> Decimal.Pos Decimal.Nil /\ Z.to_int z <> Decimal.Neg Decimal.Nil.
Proof.
  destruct z as [|p|p]; simpl; split; try discriminate;
    intros [= H]; now apply (DecimalPos.Unsigned.to_uint_nonnil p).
Qed.

Lemma str_int_read (z : Z) :
  NilZero.int_of_string (Text.str_int z) = Some (Z.to_int z).
Proof.
  destruct (to_int_not_nil z) as [H1 H2]. now apply NilZero.isi.
Qed.

Lemma str_int_inj (a b : Z) : Text.str_int a = Text.str_int b -> a = b.
Proof.
  intros H. apply (f_equal NilZero.int_of_string) in H.
  rewrite !str_int_read in H. injection H as H.
  apply (f_equal Z.of_int) in H. now rewrite !DecimalZ.of_to in H.
Qed.

Lemma str_int_not_bool (z : Z) (b : bool) : Text.str_int z <> Text.str_bool b.
Proof.
  intros H. apply (f_equal NilZero.int_of_string) in H.
  rewrite str_int_read in H. destruct b; discriminate H.
Qed.

Lemma init_num_ok (name : Py.value) (n : Py.number) (a : Advanced.student) :
  Advanced.Student___init__ name (Py.VNum n) = Ok a ->
  name = Py.VStr (Advanced._name a)
  /\ ((exists b, n = Py.NBool b /\ Advanced._number a = Text.str_bool b)
      \/ (exists z, n = Py.NInt z /\ Advanced._number a = Text.str_int z)).
Proof.
  unfold Advanced.Student___init__. destruct name as [|x|x]; try discriminate.
  destruct n as [b|z|q]; try discriminate.
  - intros [= <-]. split; [reflexivity|]. left. now exists b.
  - destruct (Text.str_of_int z) as [t|e] eqn:E; [|discriminate].
    apply str_of_int_ok in E. subst t. intros [= <-].
    split; [reflexivity|]. right. now exists z.
Qed.

(** X18.  The text that [Student.__init__] stores for an [int] or [bool]
    number determines the number: two records initialised with the same
    name and with numbers [n] and [m] are equal exactly when [n] and [m]
    are the same value of the same type (so the records for [True] and
    for [1] differ). *)
Theorem init_number_injective (name : Py.value) (n m : Py.number)
        (a b : Advanced.student) :
  Advanced.Student___init__ name (Py.VNum n) = Ok a ->
  Advanced.Student___init__ name (Py.VNum m) = Ok b ->
  (Advanced.Student___eq__ a b = true <-> n = m).
Proof.
  intros Ha Hb. rewrite Student_eq_spec.
  destruct (init_num_ok _ _ _ Ha) as [Hna Ta].
  destruct (init_num_ok _ _ _ Hb) as [Hnb Tb].
  assert (Hn : Advanced._name a = Advanced._name b) by congruence.
  split.
  - intros [_ H].
    destruct Ta as [[ba [-> Ea]]|[za [-> Ea]]], Tb as [[bb [-> Eb]]|[zb [-> Eb]]];
      rewrite Ea, Eb in H.
    + destruct ba, bb; try reflexivity; discriminate H.
    + symmetry in H. now apply str_int_not_bool in H.
    + now apply str_int_not_bool in H.
    + now rewrite (str_int_inj _ _ H).
  - intros ->. split; [exact Hn|].
    destruct Ta as [[ba [-> Ea]]|[za [-> Ea]]], Tb as [[bb [E Eb]]|[zb [E Eb]]];
      try discriminate E; injection E as <-; now rewrite Ea, Eb.
Qed.

Lemma init_number_injective_witness :
  Advanced.Student___eq__ (advanced_new "Jessica" "123456")
                          (advanced_new "Jessica" "123456") = true
  /\ ~ Advanced.Student___eq__ (advanced_new "Jessica" "True")
                               (advanced_new "Jessica" "1") = true.
Proof.
  split.
  - apply (proj2 (init_number_injective (Py.VStr "Jessica") (Py.NInt 123456)
                    (Py.NInt 123456) _ _ eq_refl eq_refl)).
    reflexivity.
  - intros H.
    apply (proj1 (init_number_injective (Py.VStr "Jessica") (Py.NBool true)
                    (Py.NInt 1) _ _ eq_refl eq_refl)) in H.
    discriminate H.
Defined.

(** ** Adding a new course *)

Lemma setitem_new {V : Type} (k : string) (v : V) (d : OrderedDict.t V) :
  OrderedDict.contains k d = false ->
  OrderedDict.setitem k v d = (d ++ [(k, v)])%list.
Proof.
  induction d as [|[k0 v0] d IH]; simpl; [reflexivity|].
  destruct (String.eqb k0 k); simpl; [discriminate|].
  intros H. now rewrite IH.
Qed.

(** X19.  In lab6a.py, giving a grade to a course that is not stored yet
    puts the course at the end of the listing when the grade is above
    0.0, and leaves the listing as it was otherwise. *)
Theorem displayCourses_after_new_course (s : Base.student) (c : string)
        (g : Py.number) :
  OrderedDict.contains c (Base.courses s) = false ->
  Base.displayCourses (Base.addGrade s c g) =
  if Spec.passed g then (Base.displayCourses s ++ [c])%list
  else Base.displayCourses s.
Proof.
  intros H. unfold Base.displayCourses, Base.addGrade, OrderedDict.items.
  cbn [Base.courses]. rewrite (setitem_new c g _ H).
  rewrite filter_app, map_app. simpl.
  fold (Spec.passed g). destruct (Spec.passed g); simpl; [reflexivity|].
  apply app_nil_r.
Qed.

Lemma displayCourses_after_new_course_witness :
  Base.displayCourses (Base.addGrade jessica_base "ops445" (Py.NFloat 3)) =
    ["ipc144"; "cpp244"; "ops445"]
  /\ Base.displayCourses (Base.addGrade jessica_base "ops245" (Py.NFloat (-2))) =
    ["ipc144"; "cpp244"].
Proof.
  split.
  - apply (displayCourses_after_new_course jessica_base "ops445" (Py.NFloat 3)).
    reflexivity.
  - apply (displayCourses_after_new_course jessica_base "ops245" (Py.NFloat (-2))).
    reflexivity.
Defined.
